(** * Inference benchmarking client: a shallow embedding

    Source: [fraud-detection-system/deployment/inference_client.py].

    Python values are embedded as they occur in the client:
    - [float] is IEEE binary64, Rocq's primitive [float];
    - [int] is [Z];
    - a [dict] with string keys is a [gmap string _];
    - an exception is a value of [exn], raised through [pyresult];
    - code that reads the clock, the random generators or the network
      runs in the state-and-exception monad [M] over a [World], which
      also answers for the file system. *)

From Stdlib Require Import Floats ZArith List Permutation Lia.
From Stdlib Require Uint63.
From stdpp Require Import gmap strings pretty.

(* Decimal literals such as [0.9] denote the nearest binary64 value, as
   they do in Python. *)
Set Warnings "-register-all,-inexact-float".

Open Scope Z_scope.

(** ** Python values *)

Inductive pyval : Type :=
| PyNone
| PyBool (b : bool)
| PyInt (z : Z)
| PyFloat (f : float)
| PyStr (s : string)
| PyList (l : list pyval)
| PyDict (d : gmap string pyval).

(** [type(v).__name__], as it appears in interpreter messages. *)
Definition type_name (v : pyval) : string :=
  match v with
  | PyNone => "NoneType"
  | PyBool _ => "bool"
  | PyInt _ => "int"
  | PyFloat _ => "float"
  | PyStr _ => "str"
  | PyList _ => "list"
  | PyDict _ => "dict"
  end.

(** ** Exceptions

    Every class below derives from [Exception]; [str e] is the message
    the client stores in [error_message]. Messages of the interpreter
    are worded as CPython words them; those of [requests] and [urllib3]
    are cut down to their fixed part (the host, the URL and the reason
    phrase are left out). *)

Inductive exn_class : Set :=
| KeyError | IndexError | TypeError | ValueError | ZeroDivisionError
| HTTPError | ConnectionError | RetryError | JSONDecodeError
| ReadTimeout | ChunkedEncodingError | InvalidHeader | TooManyRedirects
| MissingSchema | InvalidSchema | InvalidURL | InvalidJSONError
| OSError.

Record exn : Type := Exn { exn_cls : exn_class; exn_msg : string }.

Definition str (e : exn) : string := exn_msg e.

Inductive pyresult (A : Type) : Type :=
| Ok (a : A)
| Raise (e : exn).
Arguments Ok {A} a.
Arguments Raise {A} e.

Definition pbind {A B : Type} (r : pyresult A) (k : A → pyresult B) : pyresult B :=
  match r with
  | Ok a => k a
  | Raise e => Raise e
  end.

(** [[f(x) for x in xs]]: evaluated left to right, the first exception
    aborts the comprehension. *)
Fixpoint comprehension {A B : Type} (f : A → pyresult B) (xs : list A)
  : pyresult (list B) :=
  match xs with
  | [] => Ok []
  | x :: xs' => pbind (f x) (λ y, pbind (comprehension f xs') (λ ys, Ok (y :: ys)))
  end.

(** [d[key]] on a dict: a missing key raises [KeyError(key)], whose
    [str] is [repr(key)]. *)
Definition dict_getitem (d : gmap string pyval) (key : string) : pyresult pyval :=
  match d !! key with
  | Some v => Ok v
  | None => Raise (Exn KeyError ("'" +:+ key +:+ "'"))
  end.

(** ** Protocol encoder: [InferenceClient.prepare_request_payload] *)

Definition feature_names : list string :=
  [ "amount"; "merchant_id"; "country"; "hour"; "day_of_week";
    "day_of_month"; "is_night"; "is_weekend"; "log_amount";
    "amount_squared"; "high_amount"; "unusual_time";
    "high_risk_device"; "high_risk_transaction"; "total_risk_factors" ].

Definition prepare_request_payload (transaction : gmap string pyval)
  : pyresult pyval :=
  pbind (comprehension (dict_getitem transaction) feature_names) (λ row,
  Ok (PyDict {[ "inputs" :=
        PyList [ PyDict (list_to_map
          [ ("name", PyStr "float_input");
            ("shape", PyList [PyInt 1; PyInt (Z.of_nat (length feature_names))]);
            ("datatype", PyStr "FP32");
            ("data", PyList [PyList row]) ]) ] ]})).

(** ** HTTP transport: the session of [InferenceClient.__init__]

    [requests] and [urllib3] are library code. What is modelled here is
    what the client's calls go through: the decision procedure of
    [urllib3.util.retry.Retry] with the three arguments the client
    passes and the library's defaults for the others, the loop of
    [HTTPConnectionPool.urlopen] around it, and the redirects that
    [requests.Session] follows. *)

Record Retry : Type := {
  total : Z;
  read_retries : bool;             (* [read] is not [False] *)
  backoff_factor : Z;
  status_forcelist : list Z;
  allowed_methods : list string;
  respect_retry_after_header : bool
}.

(** [Retry.DEFAULT_ALLOWED_METHODS]: the idempotent methods. *)
Definition DEFAULT_ALLOWED_METHODS : list string :=
  ["HEAD"; "GET"; "PUT"; "DELETE"; "OPTIONS"; "TRACE"].

(** [Retry.RETRY_AFTER_STATUS_CODES]. *)
Definition RETRY_AFTER_STATUS_CODES : list Z := [413; 429; 503].

(** [Retry(total=3, backoff_factor=1, status_forcelist=[...])]. *)
Definition retry_strategy : Retry := {|
  total := 3;
  read_retries := true;
  backoff_factor := 1;
  status_forcelist := [429; 500; 502; 503; 504];
  allowed_methods := DEFAULT_ALLOWED_METHODS;
  respect_retry_after_header := true
|}.

(** [Retry(0, read=False)], the policy of the adapters a new
    [requests.Session] comes with. *)
Definition DEFAULT_RETRIES : Retry := {|
  total := 0;
  read_retries := false;
  backoff_factor := 0;
  status_forcelist := [];
  allowed_methods := DEFAULT_ALLOWED_METHODS;
  respect_retry_after_header := true
|}.

(** The policy of the session's adapters after [__init__]: with
    [enable_retry] the mounted adapter carries [retry_strategy],
    without it the session keeps its default adapters. *)
Definition adapter_retries (enable_retry : bool) : Retry :=
  if enable_retry then retry_strategy else DEFAULT_RETRIES.

(** The policy with [budget] retries left: [Retry.increment] hands on a
    copy with [total] decremented. *)
Definition remaining (r : Retry) (budget : nat) : Retry :=
  {| total := Z.of_nat budget;
     read_retries := read_retries r;
     backoff_factor := backoff_factor r;
     status_forcelist := status_forcelist r;
     allowed_methods := allowed_methods r;
     respect_retry_after_header := respect_retry_after_header r |}.

Definition in_codes (status_code : Z) (codes : list Z) : bool :=
  existsb (Z.eqb status_code) codes.

Definition is_method_retryable (r : Retry) (method : string) : bool :=
  existsb (String.eqb method) (allowed_methods r).

(** [Retry.is_retry(method, status_code, has_retry_after)]. *)
Definition is_retry (r : Retry) (method : string) (status_code : Z)
    (has_retry_after : bool) : bool :=
  if negb (is_method_retryable r method) then false
  else if in_codes status_code (status_forcelist r) then true
  else negb (total r =? 0) && respect_retry_after_header r && has_retry_after
       && in_codes status_code RETRY_AFTER_STATUS_CODES.

(** The Retry-After header of a reply, as [Retry] reads it: absent,
    empty, asking for no delay (zero seconds, a date not ahead), asking
    for a delay, or not a number and not a date. *)
Inductive retry_after_header : Set :=
| NoRetryAfter | RetryAfterEmpty | RetryAfterNow | RetryAfterLater
| RetryAfterUnparsable.

Record Response : Type := {
  status_code : Z;
  retry_after : retry_after_header;
  body : option pyval            (* the body parsed as JSON, if it is JSON *)
}.

(** [bool(response.headers.get("Retry-After"))]. *)
Definition has_retry_after (resp : Response) : bool :=
  match retry_after resp with
  | NoRetryAfter | RetryAfterEmpty => false
  | _ => true
  end.

(** The redirects [requests] follows: a reply with a Location header
    and one of these statuses. *)
Inductive redirect : Set :=
| Moved301 | Found302 | SeeOther303 | Temporary307 | Permanent308.

(** How a read fails once the request was sent: the read timed out, the
    connection was reset before a reply, or the body broke off. *)
Inductive breakage : Set := TimedOut | Aborted | Truncated.

(** Why [requests] gives a request up before it connects: the URL has
    no scheme, no adapter is mounted for its scheme, it names no host,
    or the JSON body holds a NaN or an infinity. *)
Inductive unsendable : Set :=
| NoScheme | NoAdapter | NoHost | OutOfRangeFloat.

(** What one attempt meets.
    - [Unsendable]: the request is given up before a connection is
      tried; this is met only where a request starts.
    - [Refused]: no connection (refused, connect timeout, TLS failure),
      an error [urllib3] retries for every method.
    - [Broken]: the request went out and no complete reply came back.
    - [Redirected]: a reply that the session follows to another URL.
    - [Replied]: any other reply. *)
Inductive attempt : Type :=
| Refused (reason : string)
| Replied (resp : Response)
| Broken (how : breakage) (reason : string)
| Redirected (status : redirect)
| Unsendable (why : unsendable).

(** What the adapter hands back to the session. *)
Inductive reply : Type :=
| Final (resp : Response)
| Follow (status : redirect).

(** The outcome of one request of the adapter, with the number of
    attempts made and of waits ([time.sleep]) taken between them. *)
Record Sent : Type := {
  outcome : pyresult reply;
  attempts : nat;
  sleeps : nat
}.

Definition max_retries_exceeded (reason : string) : string :=
  "Max retries exceeded with url: /v2/models/fraud_detector/infer (Caused by "
  +:+ reason +:+ ")".

Definition unsendable_exn (why : unsendable) : exn :=
  match why with
  | NoScheme => Exn MissingSchema "Invalid URL: No scheme supplied"
  | NoAdapter => Exn InvalidSchema "No connection adapters were found"
  | NoHost => Exn InvalidURL "Invalid URL: No host supplied"
  | OutOfRangeFloat =>
      Exn InvalidJSONError "Out of range float values are not JSON compliant"
  end.

(** The exception of a read error that is not retried. *)
Definition broken_exn (how : breakage) (reason : string) : exn :=
  match how with
  | TimedOut => Exn ReadTimeout "Read timed out. (read timeout=30)"
  | Aborted => Exn ConnectionError ("('Connection aborted.', " +:+ reason +:+ ")")
  | Truncated => Exn ChunkedEncodingError ("Connection broken: " +:+ reason)
  end.

(** [Retry.increment] on a read error: [urllib3] retries it when reads
    are retried and the method is one the policy retries; a body that
    breaks off is read by [requests], after the adapter's loop. *)
Definition retries_read (r : Retry) (method : string) (how : breakage) : bool :=
  match how with
  | Truncated => false
  | _ => read_retries r && is_method_retryable r method
  end.

(** [Retry._sleep_backoff] after the [failures]-th failure in a row:
    [get_backoff_time] is 0 for the first one, and
    [backoff_factor * 2 ** (failures - 1)] from the second on. *)
Definition backs_off (r : Retry) (failures : nat) : bool :=
  (1 <? failures)%nat && (0 <? backoff_factor r).

(** [Retry.sleep(response)] for a reply that is retried: whether it
    sleeps. A Retry-After value that asks for a delay is slept through;
    one that cannot be parsed raises. *)
Definition sleep_for (r : Retry) (resp : Response) (failures : nat)
  : pyresult bool :=
  if respect_retry_after_header r then
    match retry_after resp with
    | RetryAfterLater => Ok true
    | RetryAfterEmpty | RetryAfterUnparsable =>
        Raise (Exn InvalidHeader "Invalid Retry-After header")
    | NoRetryAfter | RetryAfterNow => Ok (backs_off r failures)
    end
  else Ok (backs_off r failures).

Definition failed (e : exn) : Sent :=
  {| outcome := Raise e; attempts := 1; sleeps := 0 |}.

Definition retried (waited : bool) (rest : Sent) : Sent :=
  {| outcome := outcome rest; attempts := S (attempts rest);
     sleeps := ((if waited then 1 else 0) + sleeps rest)%nat |}.

(** The adapter's loop, [urlopen] with [redirect=False]: [budget]
    retries are left, [failures] attempts have failed so far, [wire k]
    is what the [k]-th attempt from now meets. A failure that is
    retried takes one retry, sleeps as [Retry.sleep] says and tries
    again; with no retry left the request fails with the last cause. *)
Fixpoint send (r : Retry) (method : string) (budget failures : nat)
    (wire : nat → attempt) : Sent :=
  match wire 0%nat with
  | Unsendable why =>
      {| outcome := Raise (unsendable_exn why); attempts := 0; sleeps := 0 |}
  | Refused reason =>
      match budget with
      | O => failed (Exn ConnectionError (max_retries_exceeded reason))
      | S budget' =>
          retried (backs_off r (S failures))
            (send r method budget' (S failures) (λ k, wire (S k)))
      end
  | Broken how reason =>
      if retries_read r method how then
        match budget with
        | O => failed (Exn ConnectionError (max_retries_exceeded reason))
        | S budget' =>
            retried (backs_off r (S failures))
              (send r method budget' (S failures) (λ k, wire (S k)))
        end
      else failed (broken_exn how reason)
  | Redirected status =>
      {| outcome := Ok (Follow status); attempts := 1; sleeps := 0 |}
  | Replied resp =>
      if is_retry (remaining r budget) method (status_code resp)
           (has_retry_after resp) then
        match budget with
        | O => failed (Exn RetryError
                 (max_retries_exceeded ("ResponseError('too many "
                    +:+ pretty (status_code resp) +:+ " error responses')")))
        | S budget' =>
            match sleep_for r resp (S failures) with
            | Raise e => failed e
            | Ok waited =>
                retried waited
                  (send r method budget' (S failures) (λ k, wire (S k)))
            end
        end
      else {| outcome := Ok (Final resp); attempts := 1; sleeps := 0 |}
  end.

(** [Session.rebuild_method]: the method of the request that follows
    a redirect. *)
Definition rebuild_method (method : string) (status : redirect) : string :=
  match status with
  | SeeOther303 | Found302 => if String.eqb method "HEAD" then method else "GET"
  | Moved301 => if String.eqb method "POST" then "GET" else method
  | Temporary307 | Permanent308 => method
  end.

(** The body of the request that follows a redirect: kept on 307 and
    308 only. *)
Definition rebuild_body (status : redirect) (body : pyval) : pyval :=
  match status with
  | Temporary307 | Permanent308 => body
  | _ => PyNone
  end.

(** ** The world the client runs in

    The clock, the two random generators, the endpoint and the file
    system are oracles: the [k]-th call of each of the first four kinds
    gets the [k]-th answer. The counters are the only mutable part. *)

Record World : Type := {
  time_at : nat → float;          (* [time.time()] *)
  iso_at : nat → string;          (* [datetime.now().isoformat()] *)
  ticks : nat;
  randint_raw : nat → Z;          (* module [random] *)
  draws : nat;
  np_raw : nat → float;           (* module [np.random] *)
  np_draws : nat;
  endpoint : nat → pyval → attempt;   (* what an attempt with this body meets *)
  attempts_made : nat;
  sleeps_taken : nat;
  write_error : string → option string
    (* [open(path, "w")] and the writes: the message of the OSError, if any *)
}.

Definition tick (w : World) : World :=
  {| time_at := time_at w; iso_at := iso_at w; ticks := S (ticks w);
     randint_raw := randint_raw w; draws := draws w;
     np_raw := np_raw w; np_draws := np_draws w;
     endpoint := endpoint w; attempts_made := attempts_made w;
     sleeps_taken := sleeps_taken w; write_error := write_error w |}.

Definition drawn (w : World) : World :=
  {| time_at := time_at w; iso_at := iso_at w; ticks := ticks w;
     randint_raw := randint_raw w; draws := S (draws w);
     np_raw := np_raw w; np_draws := np_draws w;
     endpoint := endpoint w; attempts_made := attempts_made w;
     sleeps_taken := sleeps_taken w; write_error := write_error w |}.

Definition np_drawn (w : World) : World :=
  {| time_at := time_at w; iso_at := iso_at w; ticks := ticks w;
     randint_raw := randint_raw w; draws := draws w;
     np_raw := np_raw w; np_draws := S (np_draws w);
     endpoint := endpoint w; attempts_made := attempts_made w;
     sleeps_taken := sleeps_taken w; write_error := write_error w |}.

Definition attempted (n s : nat) (w : World) : World :=
  {| time_at := time_at w; iso_at := iso_at w; ticks := ticks w;
     randint_raw := randint_raw w; draws := draws w;
     np_raw := np_raw w; np_draws := np_draws w;
     endpoint := endpoint w; attempts_made := (attempts_made w + n)%nat;
     sleeps_taken := (sleeps_taken w + s)%nat; write_error := write_error w |}.

(** ** The state-and-exception monad *)

Definition M (A : Type) : Type := World → pyresult A * World.

Definition ret {A : Type} (a : A) : M A := λ w, (Ok a, w).

Definition bind {A B : Type} (m : M A) (k : A → M B) : M B :=
  λ w, match m w with
       | (Ok a, w') => k a w'
       | (Raise e, w') => (Raise e, w')
       end.

Definition lift {A : Type} (r : pyresult A) : M A := λ w, (r, w).

(** [try: body except Exception as e: handler(e)]. *)
Definition try_except {A : Type} (body : M A) (handler : exn → M A) : M A :=
  λ w, match body w with
       | (Ok a, w') => (Ok a, w')
       | (Raise e, w') => handler e w'
       end.

Declare Scope py_scope.
Delimit Scope py_scope with py.
Notation "'let*' x := m 'in' k" := (bind m (λ x, k))
  (at level 10, x pattern, m at level 200, k at level 200) : py_scope.
Open Scope py_scope.

Definition time_time : M float :=
  λ w, (Ok (time_at w (ticks w)), tick w).

Definition datetime_now_isoformat : M string :=
  λ w, (Ok (iso_at w (ticks w)), tick w).

(** [random.randint(a, b)]: uniform on [a..b], here the raw draw folded
    into the range. *)
Definition random_randint (a b : Z) : M Z :=
  λ w, (Ok (a + randint_raw w (draws w) `mod` (b - a + 1)), drawn w).

(** [np.random.lognormal(mean, sigma)] and [np.random.uniform()]: the
    oracle hands out the sample. *)
Definition np_random_lognormal (mean sigma : float) : M float :=
  λ w, (Ok (np_raw w (np_draws w)), np_drawn w).

Definition np_random_uniform : M float :=
  λ w, (Ok (np_raw w (np_draws w)), np_drawn w).

(** [Session.send] and [resolve_redirects]: the request goes through
    the adapter; a redirect is followed with a request of its own,
    which starts with the full retry budget, until [hops] redirects
    have been followed. *)
Fixpoint follow (r : Retry) (hops : nat) (method : string) (body : pyval)
    (w : World) : pyresult Response * World :=
  let sent := send r method (Z.to_nat (total r)) 0
                (λ k, endpoint w (attempts_made w + k)%nat body) in
  let w1 := attempted (attempts sent) (sleeps sent) w in
  match outcome sent with
  | Raise e => (Raise e, w1)
  | Ok (Final resp) => (Ok resp, w1)
  | Ok (Follow status) =>
      match hops with
      | O => (Raise (Exn TooManyRedirects "Exceeded 30 redirects."), w1)
      | S hops' =>
          follow r hops' (rebuild_method method status)
            (rebuild_body status body) w1
      end
  end.

(** [self.session.post(url, json=payload, timeout=...)]. The client is
    the one [InferenceClient(endpoint)] builds, with [enable_retry]
    left at its default, as [main] builds it; [max_redirects] is the
    session's default. *)
Definition session_post (payload : pyval) : M Response :=
  follow (adapter_retries true) 30 "POST" payload.

(** ** Request executor: [InferenceClient.predict] *)

Record InferenceMetrics : Type := {
  request_time : float;          (* microseconds *)
  inference_time : float;        (* microseconds *)
  total_time : float;            (* microseconds *)
  success : bool;
  error_message : option string;
  timestamp : option string
}.

(** [response.raise_for_status()]. *)
Definition raise_for_status (resp : Response) : pyresult unit :=
  if (400 <=? status_code resp) && (status_code resp <? 500) then
    Raise (Exn HTTPError (pretty (status_code resp) +:+ " Client Error"))
  else if (500 <=? status_code resp) && (status_code resp <? 600) then
    Raise (Exn HTTPError (pretty (status_code resp) +:+ " Server Error"))
  else Ok ().

(** [response.json()]. *)
Definition response_json (resp : Response) : pyresult pyval :=
  match body resp with
  | Some v => Ok v
  | None => Raise (Exn JSONDecodeError "Expecting value: line 1 column 1 (char 0)")
  end.

Definition not_subscriptable (v : pyval) : exn :=
  Exn TypeError ("'" +:+ type_name v +:+ "' object is not subscriptable").

(** [v[key]] for a string literal [key]. *)
Definition getitem_str (v : pyval) (key : string) : pyresult pyval :=
  match v with
  | PyDict d => dict_getitem d key
  | PyList _ => Raise (Exn TypeError "list indices must be integers or slices, not str")
  | PyStr _ => Raise (Exn TypeError "string indices must be integers, not 'str'")
  | _ => Raise (not_subscriptable v)
  end.

(** [v[0]]. *)
Definition getitem_0 (v : pyval) : pyresult pyval :=
  match v with
  | PyList (x :: _) => Ok x
  | PyList [] => Raise (Exn IndexError "list index out of range")
  | PyStr (String c _) => Ok (PyStr (String c ""))
  | PyStr "" => Raise (Exn IndexError "string index out of range")
  | PyDict _ => Raise (Exn KeyError "0")
  | _ => Raise (not_subscriptable v)
  end.

(** [result["outputs"][0]["data"][0]]. *)
Definition fraud_score_of (result : pyval) : pyresult pyval :=
  pbind (getitem_str result "outputs") (λ outputs,
  pbind (getitem_0 outputs) (λ output,
  pbind (getitem_str output "data") (λ data,
  getitem_0 data))).

(** [v > 0.5]. An [int] is compared with the float exactly, so it
    exceeds 0.5 just when it is positive; [True] is 1 and [False] is 0. *)
Definition gt_half (v : pyval) : pyresult bool :=
  match v with
  | PyFloat f => Ok (0.5 <? f)%float
  | PyInt z => Ok (0 <? z)
  | PyBool b => Ok b
  | _ => Raise (Exn TypeError
           ("'>' not supported between instances of '" +:+ type_name v
            +:+ "' and 'float'"))
  end.

(** The body of the [try] block, after [request_start] was read. *)
Definition predict_try (transaction : gmap string pyval) (request_start : float)
  : M (bool * InferenceMetrics) :=
  let* payload := lift (prepare_request_payload transaction) in
  let* inference_start := time_time in
  let* response := session_post payload in
  let* inference_end := time_time in
  let* request_end := time_time in
  let* _ := lift (raise_for_status response) in
  let* result := lift (response_json response) in
  let* fraud_score := lift (fraud_score_of result) in
  let* now := datetime_now_isoformat in
  let metrics :=
    {| request_time := (inference_start - request_start) * 1e6;
       inference_time := (inference_end - inference_start) * 1e6;
       total_time := (request_end - request_start) * 1e6;
       success := true;
       error_message := None;
       timestamp := Some now |}%float in
  let* positive := lift (gt_half fraud_score) in
  ret (positive, metrics).

(** The [except Exception as e] block. *)
Definition predict_except (request_start : float) (e : exn)
  : M (bool * InferenceMetrics) :=
  let* request_end := time_time in
  let* now := datetime_now_isoformat in
  ret (false,
       {| request_time := (request_start - request_start) * 1e6;
          inference_time := 0;
          total_time := (request_end - request_start) * 1e6;
          success := false;
          error_message := Some (str e);
          timestamp := Some now |}%float).

Definition predict (transaction : gmap string pyval)
  : M (bool * InferenceMetrics) :=
  let* request_start := time_time in
  try_except (predict_try transaction request_start)
             (predict_except request_start).

(** ** Numeric library functions

    [np.log1p], the C library's [pow] behind [**], and numpy's
    statistics are not part of the repository; the client is embedded
    over any implementation of them. *)

Record Numerics : Type := {
  log1p : float → float;
  pow : float → Z → float;
  percentile : list float → Z → pyresult float;
  mean : list float → pyresult float;
  std : list float → pyresult float
}.

(** [np.minimum] and [np.maximum] propagate NaN. *)
Definition fmin (a b : float) : float :=
  if is_nan a then a else if is_nan b then b
  else if (b <? a)%float then b else a.

Definition fmax (a b : float) : float :=
  if is_nan a then a else if is_nan b then b
  else if (a <? b)%float then b else a.

(** [np.min] and [np.max] have no identity: on an empty sequence they
    raise [ValueError]. *)
Definition np_min (xs : list float) : pyresult float :=
  match xs with
  | [] => Raise (Exn ValueError
            "zero-size array to reduction operation minimum which has no identity")
  | x :: xs' => Ok (fold_left fmin xs' x)
  end.

Definition np_max (xs : list float) : pyresult float :=
  match xs with
  | [] => Raise (Exn ValueError
            "zero-size array to reduction operation maximum which has no identity")
  | x :: xs' => Ok (fold_left fmax xs' x)
  end.

(** [float(n)] for the counts that occur here (below [2^53], where the
    conversion is exact). *)
Definition float_of_int (n : Z) : float :=
  if n <? 0 then (- of_uint63 (Uint63.of_Z (- n)))%float
  else of_uint63 (Uint63.of_Z n).

(** [a / b] on two ints. *)
Definition int_truediv (a b : Z) : pyresult float :=
  if b =? 0 then Raise (Exn ZeroDivisionError "division by zero")
  else Ok (float_of_int a / float_of_int b)%float.

(** [a / d] on an int and a float. *)
Definition int_float_truediv (a : Z) (d : float) : pyresult float :=
  if (d =? 0)%float then Raise (Exn ZeroDivisionError "float division by zero")
  else Ok (float_of_int a / d)%float.

Definition len {A : Type} (xs : list A) : Z := Z.of_nat (length xs).

(** [range(n)]: empty when [n <= 0]. *)
Definition range (n : Z) : list Z := map Z.of_nat (seq 0 (Z.to_nat n)).

Section Client.

Context (L : Numerics).

(** ** Transaction sampler: [InferenceClient.generate_sample_transaction]

    The entries of the dict display are evaluated in the order written;
    each call draws afresh from its generator. [x ** 2] overflows only
    for [x] beyond 1e154, out of reach of the samples drawn here, so [pow]
    is taken as total and the sampler never raises. *)
Definition generate_sample_transaction : M (gmap string pyval) :=
  let* amount := np_random_lognormal 4.5 1.5 in
  let* merchant_id := random_randint 1 1000 in
  let* country := random_randint 1 50 in
  let* hour := random_randint 0 23 in
  let* day_of_week := random_randint 0 6 in
  let* day_of_month := random_randint 1 28 in
  let* night_draw := random_randint 0 23 in
  let* is_weekend := random_randint 0 1 in
  let* log_draw := np_random_lognormal 4.5 1.5 in
  let* squared_draw := np_random_lognormal 4.5 1.5 in
  let* uniform_draw := np_random_uniform in
  let* unusual_time := random_randint 0 1 in
  let* high_risk_device := random_randint 0 1 in
  let* high_risk_transaction := random_randint 0 1 in
  let* total_risk_factors := random_randint 0 4 in
  ret (list_to_map
    [ ("amount", PyFloat amount);
      ("merchant_id", PyInt merchant_id);
      ("country", PyInt country);
      ("hour", PyInt hour);
      ("day_of_week", PyInt day_of_week);
      ("day_of_month", PyInt day_of_month);
      ("is_night", PyInt (if night_draw <? 6 then 1 else 0));
      ("is_weekend", PyInt is_weekend);
      ("log_amount", PyFloat (log1p L log_draw));
      ("amount_squared", PyFloat (pow L squared_draw 2));
      ("high_amount", PyInt (if (0.75 <? uniform_draw)%float then 1 else 0));
      ("unusual_time", PyInt unusual_time);
      ("high_risk_device", PyInt high_risk_device);
      ("high_risk_transaction", PyInt high_risk_transaction);
      ("total_risk_factors", PyInt total_risk_factors) ]).

(** ** Metrics aggregator *)

Definition ms (x : float) : pyval := PyFloat (x / 1000)%float.

(** The ["latency"] entry of the throughput report. *)
Definition latency_block (total_times : list float) : pyresult pyval :=
  pbind (percentile L total_times 0) (λ t_min,
  pbind (percentile L total_times 50) (λ t_p50,
  pbind (percentile L total_times 95) (λ t_p95,
  pbind (percentile L total_times 99) (λ t_p99,
  pbind (percentile L total_times 100) (λ t_max,
  pbind (mean L total_times) (λ t_mean,
  pbind (std L total_times) (λ t_std,
  Ok (PyDict (list_to_map
    [ ("min_ms", ms t_min); ("p50_ms", ms t_p50); ("p95_ms", ms t_p95);
      ("p99_ms", ms t_p99); ("max_ms", ms t_max); ("mean_ms", ms t_mean);
      ("stdev_ms", ms t_std) ]))))))))).

(** The ["inference_latency"] entry of the throughput report. *)
Definition inference_latency_block (inference_times : list float)
  : pyresult pyval :=
  pbind (percentile L inference_times 0) (λ i_min,
  pbind (percentile L inference_times 50) (λ i_p50,
  pbind (percentile L inference_times 95) (λ i_p95,
  pbind (percentile L inference_times 99) (λ i_p99,
  pbind (percentile L inference_times 100) (λ i_max,
  pbind (mean L inference_times) (λ i_mean,
  Ok (PyDict (list_to_map
    [ ("min_ms", ms i_min); ("p50_ms", ms i_p50); ("p95_ms", ms i_p95);
      ("p99_ms", ms i_p99); ("max_ms", ms i_max); ("mean_ms", ms i_mean) ])))))))).

(** The statistics block of [run_throughput_test]; the entries of the
    report are evaluated in the order written. *)
Definition throughput_results (num_requests concurrent_clients : Z)
    (metrics_list : list InferenceMetrics) (start_time end_time : float)
  : pyresult pyval :=
  let successful := filter (λ m, success m = true) metrics_list in
  let failed := filter (λ m, success m = false) metrics_list in
  let total_times := map total_time successful in
  let inference_times := map inference_time successful in
  pbind (int_truediv (len successful) num_requests) (λ ratio,
  pbind (int_float_truediv num_requests (end_time - start_time)) (λ rps,
  pbind (latency_block total_times) (λ latency_entry,
  pbind (inference_latency_block inference_times) (λ inference_entry,
  Ok (PyDict (list_to_map
    [ ("test_type", PyStr "throughput");
      ("num_requests", PyInt num_requests);
      ("concurrent_clients", PyInt concurrent_clients);
      ("successful_requests", PyInt (len successful));
      ("failed_requests", PyInt (len failed));
      ("success_rate", PyFloat (ratio * 100));
      ("total_duration_seconds", PyFloat (end_time - start_time));
      ("throughput_rps", PyFloat rps);
      ("latency", latency_entry);
      ("inference_latency", inference_entry) ])%float))))).

(** The statistics block of [run_latency_test]. *)
Definition latency_results (num_requests : Z)
    (metrics_list : list InferenceMetrics) : pyresult pyval :=
  let successful := filter (λ m, success m = true) metrics_list in
  let total_times := map total_time successful in
  pbind (np_min total_times) (λ t_min,
  pbind (percentile L total_times 50) (λ t_p50,
  pbind (percentile L total_times 95) (λ t_p95,
  pbind (percentile L total_times 99) (λ t_p99,
  pbind (np_max total_times) (λ t_max,
  pbind (mean L total_times) (λ t_mean,
  pbind (std L total_times) (λ t_std,
  Ok (PyDict (list_to_map
    [ ("test_type", PyStr "latency");
      ("num_requests", PyInt num_requests);
      ("successful_requests", PyInt (len successful));
      ("failed_requests", PyInt (num_requests - len successful));
      ("latency_ms", PyDict (list_to_map
         [ ("min", ms t_min); ("p50", ms t_p50); ("p95", ms t_p95);
           ("p99", ms t_p99); ("max", ms t_max); ("mean", ms t_mean);
           ("stdev", ms t_std) ])) ]))))))))).

(** ** Scheduler, sequential mode: [InferenceClient.run_latency_test] *)

(** The [for i in range(num_requests)] loop, [n] iterations to go. *)
Fixpoint latency_loop (n : nat) (metrics_list : list InferenceMetrics)
  : M (list InferenceMetrics) :=
  match n with
  | O => ret metrics_list
  | S n' =>
      let* transaction := generate_sample_transaction in
      let* result := predict transaction in
      latency_loop n' (metrics_list ++ [snd result])
  end.

Definition run_latency_test (num_requests : Z) : M pyval :=
  let* start_time := time_time in
  let* metrics_list := latency_loop (length (range num_requests)) [] in
  let* end_time := time_time in
  lift (latency_results num_requests metrics_list).

(** ** Scheduler, concurrent mode: [InferenceClient.run_throughput_test] *)

Definition worker (request_id : Z) : M InferenceMetrics :=
  let* transaction := generate_sample_transaction in
  let* result := predict transaction in
  ret (snd result).

(** The executor and the [as_completed] loop as a transition system.
    [queue] holds the submitted requests no thread has taken, [running]
    those a thread is working on, [done] the finished futures that
    [as_completed] has not yet handed out, [metrics_list] the list the
    main thread appends to and [yielded] the requests whose result it
    holds. A worker's effects on the shared world take place when it
    finishes. *)
Record Pool : Type := {
  queue : list Z;
  running : list Z;
  done : list (Z * InferenceMetrics);
  metrics_list : list InferenceMetrics;
  yielded : list Z;
  world : World
}.

Inductive step (max_workers : Z) : Pool → Pool → Prop :=
| step_start i q run dn ml ys w :
    len run < max_workers →
    step max_workers
      {| queue := i :: q; running := run; done := dn;
         metrics_list := ml; yielded := ys; world := w |}
      {| queue := q; running := run ++ [i]; done := dn;
         metrics_list := ml; yielded := ys; world := w |}
| step_finish i q run1 run2 dn ml ys w metrics w' :
    worker i w = (Ok metrics, w') →
    step max_workers
      {| queue := q; running := run1 ++ i :: run2; done := dn;
         metrics_list := ml; yielded := ys; world := w |}
      {| queue := q; running := run1 ++ run2; done := dn ++ [(i, metrics)];
         metrics_list := ml; yielded := ys; world := w' |}
| step_collect i metrics q run dn1 dn2 ml ys w :
    step max_workers
      {| queue := q; running := run; done := dn1 ++ (i, metrics) :: dn2;
         metrics_list := ml; yielded := ys; world := w |}
      {| queue := q; running := run; done := dn1 ++ dn2;
         metrics_list := ml ++ [metrics]; yielded := ys ++ [i]; world := w |}.

(** Runs of the pool: the reflexive-transitive closure of [step]. *)
Definition steps (max_workers : Z) : Pool → Pool → Prop :=
  rtc (step max_workers).

(** All [num_requests] futures are submitted before the first result is
    awaited. *)
Definition submitted (num_requests : Z) (w : World) : Pool :=
  {| queue := range num_requests; running := []; done := [];
     metrics_list := []; yielded := []; world := w |}.

(** The [with] block is left when every future has been yielded. *)
Definition drained (s : Pool) : Prop :=
  queue s = [] ∧ running s = [] ∧ done s = [].

(** [run_throughput_test]: the start time is read, the executor refuses
    [max_workers <= 0], and otherwise any complete run of the pool is
    followed by the statistics block. *)
Definition run_throughput_test (num_requests concurrent_clients : Z) (w : World)
    (result : pyresult pyval) (w' : World) : Prop :=
  let start_time := time_at w (ticks w) in
  if decide (concurrent_clients ≤ 0) then
    result = Raise (Exn ValueError "max_workers must be greater than 0") ∧
    w' = tick w
  else
    ∃ s, steps concurrent_clients (submitted num_requests (tick w)) s ∧
         drained s ∧
         result = throughput_results num_requests concurrent_clients
                    (metrics_list s) start_time
                    (time_at (world s) (ticks (world s))) ∧
         w' = tick (world s).

End Client.

(** ** Command line: [main] *)

Inductive TestType : Set := latency | throughput | both.

Record Args : Type := {
  arg_endpoint : string;
  test_type : TestType;
  requests : Z;
  concurrent : Z;
  output : option string
}.

Inductive Call : Type :=
| RunLatencyTest (num_requests : Z)
| RunThroughputTest (num_requests concurrent_clients : Z).

Definition test_type_in (t : TestType) (choices : list TestType) : bool :=
  existsb (λ c, match t, c with
                | latency, latency | throughput, throughput | both, both => true
                | _, _ => false
                end) choices.

(** The test runs [main] asks for, in program order. A run that raises
    ends [main]: the runs listed after it are not started. *)
Definition main_calls (args : Args) : list Call :=
  (if test_type_in (test_type args) [latency; both]
   then [RunLatencyTest 100] else [])
  ++
  (if test_type_in (test_type args) [throughput; both]
   then [RunThroughputTest (requests args) (concurrent args)] else []).

(** ** Report printer and command line, in full: [print_results], [main]

    What [str], [str.upper] and [format] render is not modelled: the
    printer is embedded over any renderer. Which values they accept is. *)

Record Formatter : Type := {
  upper : string → string;          (* [s.upper()] *)
  to_str : pyval → string;          (* [str(v)], the empty format spec *)
  fixed : string → pyval → string   (* [format(v, spec)], [spec] ending in f *)
}.

(** The command line layer can also raise [AttributeError], a class the
    client itself never raises. *)
Inductive cli_result (A : Type) : Type :=
| Returned (a : A)
| Raised (e : exn)
| RaisedAttributeError (msg : string).
Arguments Returned {A} a.
Arguments Raised {A} e.
Arguments RaisedAttributeError {A} msg.

Definition cbind {A B : Type} (r : cli_result A) (k : A → cli_result B)
  : cli_result B :=
  match r with
  | Returned a => k a
  | Raised e => Raised e
  | RaisedAttributeError msg => RaisedAttributeError msg
  end.

Definition of_pyresult {A : Type} (r : pyresult A) : cli_result A :=
  match r with
  | Ok a => Returned a
  | Raise e => Raised e
  end.

(** [v.upper()]. *)
Definition py_upper (F : Formatter) (v : pyval) : cli_result string :=
  match v with
  | PyStr s => Returned (upper F s)
  | _ => RaisedAttributeError
           ("'" +:+ type_name v +:+ "' object has no attribute 'upper'")
  end.

(** [format(v, spec)] for a fixed-point [spec] such as [.1f] or [8.2f]. *)
Definition format_fixed (F : Formatter) (spec : string) (v : pyval)
  : pyresult string :=
  match v with
  | PyFloat _ | PyInt _ | PyBool _ => Ok (fixed F spec v)
  | PyStr _ => Raise (Exn ValueError
                 "Unknown format code 'f' for object of type 'str'")
  | _ => Raise (Exn TypeError
           ("unsupported format string passed to " +:+ type_name v
            +:+ ".__format__"))
  end.

(** [s * n]. *)
Fixpoint string_times (s : string) (n : nat) : string :=
  match n with
  | O => ""
  | S n' => s +:+ string_times s n'
  end.

Definition newline : string := String (Ascii.ascii_of_nat 10) "".

(** [v == "throughput"]: only a string can be equal to it. *)
Definition is_throughput (v : pyval) : bool :=
  match v with
  | PyStr s => String.eqb s "throughput"
  | _ => false
  end.

(** A line [label + str(results[key])]. *)
Definition plain_line (F : Formatter) (results : pyval) (label key : string)
  : cli_result string :=
  cbind (of_pyresult (getitem_str results key)) (λ v,
  Returned (label +:+ to_str F v)).

(** A line [label + format(entry[key], spec) + unit]. *)
Definition fixed_line (F : Formatter) (entry : pyval)
    (label key spec unit : string) : cli_result string :=
  cbind (of_pyresult (getitem_str entry key)) (λ v,
  cbind (of_pyresult (format_fixed F spec v)) (λ text,
  Returned (label +:+ text +:+ unit))).

(** The five lines Min, p50, p95, p99, Max of a latency entry whose keys
    end in [suffix]. *)
Definition percentile_lines (F : Formatter) (entry : pyval) (suffix : string)
  : cli_result (list string) :=
  cbind (fixed_line F entry "  Min:    " ("min" +:+ suffix) "8.2f" " ms") (λ l1,
  cbind (fixed_line F entry "  p50:    " ("p50" +:+ suffix) "8.2f" " ms") (λ l2,
  cbind (fixed_line F entry "  p95:    " ("p95" +:+ suffix) "8.2f" " ms") (λ l3,
  cbind (fixed_line F entry "  p99:    " ("p99" +:+ suffix) "8.2f" " ms") (λ l4,
  cbind (fixed_line F entry "  Max:    " ("max" +:+ suffix) "8.2f" " ms") (λ l5,
  Returned [l1; l2; l3; l4; l5]))))).

(** The line [Mean: ... ms (±stdev)]. *)
Definition mean_line (F : Formatter) (entry : pyval) (suffix : string)
  : cli_result string :=
  cbind (of_pyresult (getitem_str entry ("mean" +:+ suffix))) (λ m,
  cbind (of_pyresult (format_fixed F "8.2f" m)) (λ mean_text,
  cbind (of_pyresult (getitem_str entry ("stdev" +:+ suffix))) (λ sd,
  cbind (of_pyresult (format_fixed F ".2f" sd)) (λ stdev_text,
  Returned ("  Mean:   " +:+ mean_text +:+ " ms (±" +:+ stdev_text +:+ ")"))))).

(** [print_results]: the lines it prints, in order. *)
Definition print_results (F : Formatter) (results : pyval)
  : cli_result (list string) :=
  let rule := string_times "=" 60 in
  cbind (of_pyresult (getitem_str results "test_type")) (λ test_type,
  cbind (py_upper F test_type) (λ title,
  let header := [newline +:+ rule; "TEST RESULTS: " +:+ title; rule] in
  cbind (of_pyresult (getitem_str results "test_type")) (λ test_type',
  if is_throughput test_type' then
    cbind (plain_line F results "  Total: " "num_requests") (λ l_total,
    cbind (plain_line F results "  Concurrent clients: " "concurrent_clients") (λ l_clients,
    cbind (plain_line F results "  Successful: " "successful_requests") (λ l_ok,
    cbind (plain_line F results "  Failed: " "failed_requests") (λ l_failed,
    cbind (fixed_line F results "  Success rate: " "success_rate" ".1f" "%") (λ l_rate,
    cbind (fixed_line F results "  Requests/sec: " "throughput_rps" ".0f" " RPS") (λ l_rps,
    cbind (fixed_line F results "  Total duration: " "total_duration_seconds" ".1f" "s") (λ l_duration,
    cbind (of_pyresult (getitem_str results "latency")) (λ latency,
    cbind (percentile_lines F latency "_ms") (λ l_latency,
    cbind (mean_line F latency "_ms") (λ l_mean,
    cbind (of_pyresult (getitem_str results "inference_latency")) (λ inf_latency,
    cbind (percentile_lines F inf_latency "_ms") (λ l_inference,
    Returned (header
              ++ [newline +:+ "Requests:"; l_total; l_clients; l_ok; l_failed; l_rate;
                  newline +:+ "Throughput:"; l_rps; l_duration;
                  newline +:+ "Latency (milliseconds):"]
              ++ l_latency ++ [l_mean]
              ++ [newline +:+ "Inference Latency (milliseconds):"]
              ++ l_inference ++ [rule])))))))))))))
  else
    cbind (plain_line F results "  Total: " "num_requests") (λ l_total,
    cbind (plain_line F results "  Successful: " "successful_requests") (λ l_ok,
    cbind (plain_line F results "  Failed: " "failed_requests") (λ l_failed,
    cbind (of_pyresult (getitem_str results "latency_ms")) (λ latency,
    cbind (percentile_lines F latency "") (λ l_latency,
    cbind (mean_line F latency "") (λ l_mean,
    Returned (header
              ++ [newline +:+ "Requests:"; l_total; l_ok; l_failed;
                  newline +:+ "Latency (milliseconds):"]
              ++ l_latency ++ [l_mean] ++ [rule])))))))))).

(** What a finished [main] leaves: the lines [print_results] and
    [main] itself printed (the progress lines of the test runs are left
    out), the list [results], and the path and content written when
    [--output] is given. *)
Record MainOutcome : Type := {
  printed : list string;
  main_results : list pyval;
  saved : option (string * list pyval)
}.

(** [if args.output:] holds for a non-empty path. *)
Definition output_path (args : Args) : option string :=
  match output args with
  | Some "" => None
  | other => other
  end.

Definition finish_main (args : Args) (lines : list string)
    (results : list pyval) : MainOutcome :=
  {| printed := lines ++ match output_path args with
                         | Some path => [newline +:+ "Results saved to " +:+ path]
                         | None => []
                         end;
     main_results := results;
     saved := match output_path args with
              | Some path => Some (path, results)
              | None => None
              end |}.

(** The [if args.output:] block: [open(args.output, "w")] raises
    [OSError] (a missing directory, a path that may not be written)
    when the file system says so; otherwise the list is written. The
    reports hold strings, ints and floats only, which [json.dump]
    accepts. *)
Definition save_results (args : Args) (lines : list string)
    (results : list pyval) (w : World) : cli_result MainOutcome :=
  match output_path args with
  | Some path =>
      match write_error w path with
      | Some msg => Raised (Exn OSError msg)
      | None => Returned (finish_main args lines results)
      end
  | None => Returned (finish_main args lines results)
  end.

Section Main.

Context (L : Numerics) (F : Formatter).

(** The first [if] of [main]: the latency test, printed and appended. *)
Definition latency_stage (args : Args) (w : World)
  : cli_result (list string * list pyval) * World :=
  if test_type_in (test_type args) [latency; both] then
    match run_latency_test L 100 w with
    | (Ok latency_results, w1) =>
        (cbind (print_results F latency_results) (λ lines,
         Returned (lines, [latency_results])), w1)
    | (Raise e, w1) => (Raised e, w1)
    end
  else (Returned ([], []), w).

(** [main], after the arguments were parsed. *)
Definition main (args : Args) (w : World)
    (out : cli_result MainOutcome) (w' : World) : Prop :=
  match latency_stage args w with
  | (Returned (lines1, results1), w1) =>
      if test_type_in (test_type args) [throughput; both] then
        ∃ throughput_results,
          run_throughput_test L (requests args) (concurrent args) w1
            throughput_results w' ∧
          out = cbind (of_pyresult throughput_results) (λ report,
                cbind (print_results F report) (λ lines2,
                save_results args (lines1 ++ lines2) (results1 ++ [report]) w'))
      else out = save_results args lines1 results1 w1 ∧ w' = w1
  | (Raised e, w1) => out = Raised e ∧ w' = w1
  | (RaisedAttributeError msg, w1) => out = RaisedAttributeError msg ∧ w' = w1
  end.

End Main.

(** ** Vocabulary of the properties *)

(** An exception that carries a message. *)
Definition has_message (e : exn) : Prop := str e ≠ "".


(** The requests of [metrics_list], read left to right, were issued one
    after the other: each met the world its predecessor left. *)
Fixpoint issued_in_order (L : Numerics) (i : Z) (w : World)
    (metrics_list : list InferenceMetrics) (w' : World) : Prop :=
  match metrics_list with
  | [] => w' = w
  | metrics :: rest =>
      ∃ w1, worker L i w = (Ok metrics, w1) ∧
            issued_in_order L (i + 1) w1 rest w'
  end.

(** [metrics] is what the worker of request [i] returned. *)
Definition result_of (L : Numerics) (i : Z) (metrics : InferenceMetrics) : Prop :=
  ∃ w w', worker L i w = (Ok metrics, w').

(** Every finished future holds the result of its own request, and the
    [k]-th record collected is the result of the [k]-th request yielded. *)
Definition results_matched (L : Numerics) (s : Pool) : Prop :=
  Forall (λ d, result_of L (fst d) (snd d)) (done s) ∧
  Forall2 (result_of L) (yielded s) (metrics_list s).

(** The requests the pool knows of, wherever they are. *)
Definition pool_ids (s : Pool) : list Z :=
  queue s ++ running s ++ map fst (done s) ++ yielded s.

(** Each request costs three steps: start, finish, collect. *)
Definition pool_measure (s : Pool) : nat :=
  3 * length (queue s) + 2 * length (running s) + length (done s).

(** ** Fixtures for closed examples *)

(** An endpoint that answers every attempt with 200 and one output
    tensor holding [score]. *)
Definition stub_endpoint (score : float) : nat → pyval → attempt :=
  λ _ _, Replied {| status_code := 200; retry_after := NoRetryAfter;
                    body := Some (PyDict {[ "outputs" :=
                      PyList [PyDict (list_to_map
                        [ ("name", PyStr "probabilities");
                          ("data", PyList [PyFloat score]) ])] ]}) |}.

(** An endpoint nothing listens on. *)
Definition dead_endpoint : nat → pyval → attempt :=
  λ _ _, Refused "NewConnectionError('Connection refused')".

(** An endpoint that rejects every request with 400. *)
Definition bad_request_endpoint : nat → pyval → attempt :=
  λ _ _, Replied {| status_code := 400; retry_after := NoRetryAfter; body := None |}.

(** A wire that answers 503 twice and then 200. *)
Definition flaky_wire (k : nat) : attempt :=
  Replied {| status_code := if (k <? 2)%nat then 503 else 200;
             retry_after := NoRetryAfter; body := None |}.

Definition fixture_world (raw : nat → Z) (ep : nat → pyval → attempt) : World :=
  {| time_at := λ k, float_of_int (Z.of_nat k);
     iso_at := λ _, "2024-01-01T00:00:00";
     ticks := 0;
     randint_raw := raw;
     draws := 0;
     np_raw := λ k, float_of_int (Z.of_nat (S k));
     np_draws := 0;
     endpoint := ep;
     attempts_made := 0;
     sleeps_taken := 0;
     write_error := λ _, None |}.

Definition fixture_numerics : Numerics :=
  {| log1p := λ x, x;
     pow := λ x _, (x * x)%float;
     percentile := λ xs _, Ok (hd nan xs);
     mean := λ xs, Ok (hd nan xs);
     std := λ _, Ok 0%float |}.

Definition fixture_transaction : gmap string pyval :=
  list_to_map
    [ ("amount", PyFloat 120.5); ("merchant_id", PyInt 17);
      ("country", PyInt 3); ("hour", PyInt 14); ("day_of_week", PyInt 2);
      ("day_of_month", PyInt 9); ("is_night", PyInt 0);
      ("is_weekend", PyInt 0); ("log_amount", PyFloat 4.8);
      ("amount_squared", PyFloat 14520.25); ("high_amount", PyInt 0);
      ("unusual_time", PyInt 0); ("high_risk_device", PyInt 1);
      ("high_risk_transaction", PyInt 0); ("total_risk_factors", PyInt 1) ].

Definition fixture_success : InferenceMetrics :=
  {| request_time := 12; inference_time := 3400; total_time := 3500;
     success := true; error_message := None;
     timestamp := Some "2024-01-01T00:00:00" |}.

Definition fixture_failure : InferenceMetrics :=
  {| request_time := 0; inference_time := 0; total_time := 120;
     success := false; error_message := Some "400 Client Error";
     timestamp := Some "2024-01-01T00:00:01" |}.

(** Raw draws of module [random]: the third one is 12, the others 3. *)
Definition noon_then_three (k : nat) : Z := if (k =? 2)%nat then 12 else 3.

Definition fixture_args : Args :=
  {| arg_endpoint := "http://fraud-detection-svc:8000"; test_type := both;
     requests := 5000; concurrent := 10; output := None |}.

(** ** Vocabulary of the further properties *)

(** The reply an attempt answers the adapter's request with. *)
Definition answers (a : attempt) (rep : reply) : Prop :=
  match a, rep with
  | Replied resp, Final resp' => resp = resp'
  | Redirected status, Follow status' => status = status'
  | _, _ => False
  end.

(** An attempt that brought no reply: the connection was not made, the
    read timed out or the connection was reset. *)
Definition no_reply (a : attempt) : Prop :=
  match a with
  | Refused _ | Broken TimedOut _ | Broken Aborted _ => True
  | _ => False
  end.

(** A request that [requests] can send: no attempt is given up before
    a connection is tried. *)
Definition sendable (wire : nat → attempt) : Prop :=
  ∀ k why, wire k ≠ Unsendable why.

(** The first [k] attempts met no connection. *)
Definition refused_until (wire : nat → attempt) (k : nat) : Prop :=
  ∀ j, (j < k)%nat → ∃ reason, wire j = Refused reason.

(** The waits the client's policy takes over [refusals] failed attempts
    in a row that come after [failures] earlier ones: every failure
    but the very first is followed by a wait. *)
Definition waits_after (failures refusals : nat) : nat :=
  if (failures =? 0)%nat then Nat.pred refusals else refusals.

(** No redirect is met on the first [n] attempts. *)
Definition no_redirect (wire : nat → attempt) (n : nat) : Prop :=
  ∀ j status, (j < n)%nat → wire j ≠ Redirected status.

(** An attempt that ends a POST of the client with an exception
    though retries are left. *)
Definition gives_up (a : attempt) : Prop :=
  match a with
  | Broken _ _ | Unsendable _ => True
  | _ => False
  end.

(** Reading a request body back: [payload["inputs"][0]], its data row
    [...["data"][0]] and its declared shape [...["shape"]]. *)
Definition payload_input (payload : pyval) : pyresult pyval :=
  pbind (getitem_str payload "inputs") getitem_0.

Definition payload_row (payload : pyval) : pyresult pyval :=
  pbind (payload_input payload) (λ input,
  pbind (getitem_str input "data") getitem_0).

Definition payload_shape (payload : pyval) : pyresult pyval :=
  pbind (payload_input payload) (λ input, getitem_str input "shape").

(** [results[key]] on what a test function returned. *)
Definition report_entry (results : pyresult pyval) (key : string)
  : pyresult pyval :=
  pbind results (λ report, getitem_str report key).

(** The value of ["test_type"] in the report of a test run. *)
Definition call_name (c : Call) : string :=
  match c with
  | RunLatencyTest _ => "latency"
  | RunThroughputTest _ _ => "throughput"
  end.

(** An endpoint that refuses every connection. *)
Definition refuses_all (w : World) : Prop :=
  ∀ j payload, ∃ reason, endpoint w j payload = Refused reason.

(** ** Further fixtures *)

(** A renderer for closed examples: it leaves case alone and prints a
    number as the name of its type. *)
Definition fixture_formatter : Formatter :=
  {| upper := λ s, s;
     to_str := type_name;
     fixed := λ _ v, type_name v |}.

Definition fixture_latency_args : Args :=
  {| arg_endpoint := "http://fraud-detection-svc:8000"; test_type := latency;
     requests := 1000; concurrent := 10; output := Some "results.json" |}.

Definition fixture_no_workers_args : Args :=
  {| arg_endpoint := "http://fraud-detection-svc:8000"; test_type := both;
     requests := 1000; concurrent := 0; output := Some "results.json" |}.

(** * Properties *)

(** ** Encoder *)

(** C4: a transaction holding the fifteen features is encoded as one
    input tensor named float_input, of shape [1, 15] and datatype FP32,
    whose data is the single row of the fifteen values in schema order. *)
Theorem prepare_request_payload_schema
    (transaction : gmap string pyval)
    (amount merchant_id country hour day_of_week day_of_month is_night
     is_weekend log_amount amount_squared high_amount unusual_time
     high_risk_device high_risk_transaction total_risk_factors : pyval) :
  transaction !! "amount" = Some amount →
  transaction !! "merchant_id" = Some merchant_id →
  transaction !! "country" = Some country →
  transaction !! "hour" = Some hour →
  transaction !! "day_of_week" = Some day_of_week →
  transaction !! "day_of_month" = Some day_of_month →
  transaction !! "is_night" = Some is_night →
  transaction !! "is_weekend" = Some is_weekend →
  transaction !! "log_amount" = Some log_amount →
  transaction !! "amount_squared" = Some amount_squared →
  transaction !! "high_amount" = Some high_amount →
  transaction !! "unusual_time" = Some unusual_time →
  transaction !! "high_risk_device" = Some high_risk_device →
  transaction !! "high_risk_transaction" = Some high_risk_transaction →
  transaction !! "total_risk_factors" = Some total_risk_factors →
  prepare_request_payload transaction =
    Ok (PyDict {[ "inputs" :=
      PyList [ PyDict (list_to_map
        [ ("name", PyStr "float_input");
          ("shape", PyList [PyInt 1; PyInt 15]);
          ("datatype", PyStr "FP32");
          ("data", PyList [PyList
             [ amount; merchant_id; country; hour; day_of_week;
               day_of_month; is_night; is_weekend; log_amount;
               amount_squared; high_amount; unusual_time;
               high_risk_device; high_risk_transaction;
               total_risk_factors ]]) ]) ] ]}).
Proof.
  intros H1 H2 H3 H4 H5 H6 H7 H8 H9 H10 H11 H12 H13 H14 H15.
  unfold prepare_request_payload, feature_names; cbn [comprehension].
  unfold dict_getitem.
  rewrite H1, H2, H3, H4, H5, H6, H7, H8, H9, H10, H11, H12, H13, H14, H15.
  reflexivity.
Qed.

Lemma prepare_request_payload_schema_witness :
  prepare_request_payload fixture_transaction =
    Ok (PyDict {[ "inputs" :=
      PyList [ PyDict (list_to_map
        [ ("name", PyStr "float_input");
          ("shape", PyList [PyInt 1; PyInt 15]);
          ("datatype", PyStr "FP32");
          ("data", PyList [PyList
             [ PyFloat 120.5; PyInt 17; PyInt 3; PyInt 14; PyInt 2; PyInt 9;
               PyInt 0; PyInt 0; PyFloat 4.8; PyFloat 14520.25; PyInt 0;
               PyInt 0; PyInt 1; PyInt 0; PyInt 1 ]]) ]) ] ]}).
Proof.
  apply (prepare_request_payload_schema fixture_transaction); reflexivity.
Defined.

(** ** Helper lemmas *)

Lemma app_nonempty_r (s t : string) : t ≠ "" → s +:+ t ≠ "".
Proof. destruct s; [auto | discriminate]. Qed.

(** A score that is at most 0.5 is not above 0.5. *)
Lemma le_half_not_gt (score : float) :
  (score <=? 0.5)%float = true → (0.5 <? score)%float = false.
Proof.
  rewrite FloatAxioms.leb_spec, FloatAxioms.ltb_spec. unfold SFleb, SFltb.
  change (Prim2SF 0.5) with (S754_finite false 4503599627370496 (-53)).
  destruct (Prim2SF score) as [s | s | | s m e]; cbv beta iota delta [SFcompare].
  - destruct s; intros _; reflexivity.
  - destruct s; [reflexivity | discriminate].
  - discriminate.
  - destruct s; [reflexivity |].
    rewrite (Z.compare_antisym e (-53)).
    assert (Hm : Pos.compare_cont Eq 4503599627370496 m
                 = CompOpp (Pos.compare_cont Eq m 4503599627370496))
      by (symmetry; apply (Pos.compare_cont_antisym m 4503599627370496 Eq)).
    rewrite Hm.
    destruct (e ?= -53); cbv beta iota delta [CompOpp];
      try discriminate; try reflexivity.
    destruct (Pos.compare_cont Eq m 4503599627370496);
      try discriminate; reflexivity.
Qed.

(** *** Exceptions raised by the steps of [predict] carry a message *)

Lemma comprehension_raises {A B : Type} (f : A → pyresult B) (xs : list A) (e : exn) :
  comprehension f xs = Raise e → ∃ x, x ∈ xs ∧ f x = Raise e.
Proof.
  induction xs as [| x xs IH]; cbn; [discriminate |].
  destruct (f x) as [y | e'] eqn:Hx; cbn.
  - destruct (comprehension f xs) as [ys | e'']; cbn; [discriminate |].
    intros [= ->]. destruct IH as (x' & Hin & Hx'); [reflexivity |].
    exists x'. split; [now right | exact Hx'].
  - intros [= ->]. exists x. split; [now left | exact Hx].
Qed.

Lemma dict_getitem_has_message (d : gmap string pyval) (key : string) (e : exn) :
  dict_getitem d key = Raise e → has_message e.
Proof.
  unfold dict_getitem. destruct (d !! key); [discriminate |].
  intros [= <-]. discriminate.
Qed.

Lemma prepare_request_payload_has_message (transaction : gmap string pyval) (e : exn) :
  prepare_request_payload transaction = Raise e → has_message e.
Proof.
  unfold prepare_request_payload.
  destruct (comprehension _ _) as [row | e'] eqn:Hrow; cbn; [discriminate |].
  intros [= ->]. apply comprehension_raises in Hrow as (name & _ & Hname).
  eapply dict_getitem_has_message, Hname.
Qed.

Lemma send_has_message (r : Retry) (method : string) (budget : nat) :
  ∀ (failures : nat) (wire : nat → attempt) (e : exn),
  outcome (send r method budget failures wire) = Raise e → has_message e.
Proof.
  induction budget as [| budget IH]; intros failures wire e; cbn [send];
    destruct (wire 0%nat) as [reason | resp | how reason | status | why];
    unfold failed, retried; cbn [outcome].
  - intros [= <-]. discriminate.
  - destruct (is_retry _ _ _ _); cbn [outcome]; [| discriminate].
    intros [= <-]. discriminate.
  - destruct (retries_read r method how); cbn [outcome]; intros [= <-];
      [discriminate | destruct how; discriminate].
  - discriminate.
  - intros [= <-]. destruct why; discriminate.
  - apply IH.
  - destruct (is_retry _ _ _ _); cbn [outcome]; [| discriminate].
    destruct (sleep_for r resp (S failures)) as [waited | e'] eqn:Hs;
      cbn [outcome]; [apply IH |].
    intros [= <-]. unfold sleep_for in Hs.
    destruct (respect_retry_after_header r); [| discriminate].
    destruct (retry_after resp); try discriminate; injection Hs as <-;
      discriminate.
  - destruct (retries_read r method how); cbn [outcome]; [apply IH |].
    intros [= <-]. destruct how; discriminate.
  - discriminate.
  - intros [= <-]. destruct why; discriminate.
Qed.

Lemma raise_for_status_has_message (resp : Response) (e : exn) :
  raise_for_status resp = Raise e → has_message e.
Proof.
  unfold raise_for_status. repeat case_match; try discriminate;
    intros [= <-]; apply app_nonempty_r; discriminate.
Qed.

Lemma response_json_has_message (resp : Response) (e : exn) :
  response_json resp = Raise e → has_message e.
Proof.
  unfold response_json. destruct (body resp); [discriminate |].
  intros [= <-]. discriminate.
Qed.

Lemma getitem_str_has_message (v : pyval) (key : string) (e : exn) :
  getitem_str v key = Raise e → has_message e.
Proof.
  destruct v; cbn; try (intros [= <-]; discriminate).
  apply dict_getitem_has_message.
Qed.

Lemma getitem_0_has_message (v : pyval) (e : exn) : getitem_0 v = Raise e → has_message e.
Proof.
  destruct v as [| | | | s | l |]; cbn; try (intros [= <-]; discriminate).
  - destruct s; [intros [= <-] |]; discriminate.
  - destruct l; [intros [= <-] |]; discriminate.
Qed.

Lemma fraud_score_of_has_message (result : pyval) (e : exn) :
  fraud_score_of result = Raise e → has_message e.
Proof.
  unfold fraud_score_of, pbind.
  destruct (getitem_str result "outputs") as [outputs |] eqn:H1;
    [| intros [= <-]; eapply getitem_str_has_message, H1].
  destruct (getitem_0 outputs) as [output0 |] eqn:H2;
    [| intros [= <-]; eapply getitem_0_has_message, H2].
  destruct (getitem_str output0 "data") as [data |] eqn:H3;
    [| intros [= <-]; eapply getitem_str_has_message, H3].
  apply getitem_0_has_message.
Qed.

Lemma gt_half_has_message (v : pyval) (e : exn) : gt_half v = Raise e → has_message e.
Proof. destruct v; cbn; try discriminate; intros [= <-]; discriminate. Qed.

(** *** The client's requests are POSTs, which the policy never retries
    on a reply. *)

Lemma post_is_not_retried (budget : nat) (status : Z) (has_header : bool) :
  is_retry (remaining retry_strategy budget) "POST" status has_header = false.
Proof. reflexivity. Qed.

Lemma send_post_replied (budget failures : nat) (wire : nat → attempt)
    (resp : Response) :
  wire 0%nat = Replied resp →
  send retry_strategy "POST" budget failures wire
    = {| outcome := Ok (Final resp); attempts := 1; sleeps := 0 |}.
Proof.
  intros Hw. destruct budget; cbn [send]; rewrite Hw, post_is_not_retried;
    reflexivity.
Qed.

Lemma follow_unfold (r : Retry) (hops : nat) (method : string) (body : pyval)
    (w : World) :
  follow r hops method body w =
    let sent := send r method (Z.to_nat (total r)) 0
                  (λ k, endpoint w (attempts_made w + k)%nat body) in
    let w1 := attempted (attempts sent) (sleeps sent) w in
    match outcome sent with
    | Raise e => (Raise e, w1)
    | Ok (Final resp) => (Ok resp, w1)
    | Ok (Follow status) =>
        match hops with
        | O => (Raise (Exn TooManyRedirects "Exceeded 30 redirects."), w1)
        | S hops' =>
            follow r hops' (rebuild_method method status)
              (rebuild_body status body) w1
        end
    end.
Proof. destruct hops; reflexivity. Qed.

Lemma session_post_unfold (payload : pyval) (w : World) :
  session_post payload w =
    let sent := send retry_strategy "POST" 3 0
                  (λ k, endpoint w (attempts_made w + k)%nat payload) in
    let w1 := attempted (attempts sent) (sleeps sent) w in
    match outcome sent with
    | Raise e => (Raise e, w1)
    | Ok (Final resp) => (Ok resp, w1)
    | Ok (Follow status) =>
        follow retry_strategy 29 (rebuild_method "POST" status)
          (rebuild_body status payload) w1
    end.
Proof.
  unfold session_post. change (adapter_retries true) with retry_strategy.
  rewrite follow_unfold.
  change (Z.to_nat (total retry_strategy)) with 3%nat. reflexivity.
Qed.

Lemma session_post_replied (payload : pyval) (w : World) (resp : Response) :
  endpoint w (attempts_made w) payload = Replied resp →
  session_post payload w = (Ok resp, attempted 1 0 w).
Proof.
  intros H. rewrite session_post_unfold. cbv zeta.
  rewrite (send_post_replied _ _ _ resp) by (rewrite Nat.add_0_r; exact H).
  reflexivity.
Qed.

Lemma follow_has_message (r : Retry) (hops : nat) :
  ∀ (method : string) (body : pyval) (w w' : World) (e : exn),
  follow r hops method body w = (Raise e, w') → has_message e.
Proof.
  induction hops as [| hops IH]; intros method body w w' e;
    rewrite follow_unfold; cbv zeta;
    destruct (outcome (send _ _ _ _ _)) as [[resp | status] | e0] eqn:Hs;
    try discriminate;
    try (intros [= <- _]; eapply send_has_message, Hs).
  - intros [= <- _]. discriminate.
  - apply IH.
Qed.

Lemma session_post_has_message (payload : pyval) (w w' : World) (e : exn) :
  session_post payload w = (Raise e, w') → has_message e.
Proof. apply follow_has_message. Qed.

(** What the [try] block can do: return a classification with a
    successful record, or raise an exception that carries a message. *)
Lemma predict_try_cases (transaction : gmap string pyval) (request_start : float)
    (w : World) :
  match predict_try transaction request_start w with
  | (Ok (_, metrics), _) => success metrics = true ∧ error_message metrics = None
  | (Raise e, _) => has_message e
  end.
Proof.
  unfold predict_try, bind, lift, ret, time_time, datetime_now_isoformat.
  destruct (prepare_request_payload transaction) as [payload | e] eqn:Hp;
    [| eapply prepare_request_payload_has_message, Hp].
  destruct (session_post payload (tick w)) as [[resp | e] w1] eqn:Hs;
    [| eapply session_post_has_message, Hs].
  destruct (raise_for_status resp) as [[] | e] eqn:Hr;
    [| eapply raise_for_status_has_message, Hr].
  destruct (response_json resp) as [result | e] eqn:Hj;
    [| eapply response_json_has_message, Hj].
  destruct (fraud_score_of result) as [score | e] eqn:Hf;
    [| eapply fraud_score_of_has_message, Hf].
  destruct (gt_half score) as [positive | e] eqn:Hg;
    [| eapply gt_half_has_message, Hg].
  split; reflexivity.
Qed.

(** [predict] is its [try] block, with the handler run on what it raised. *)
Lemma predict_unfold (transaction : gmap string pyval) (w : World) :
  predict transaction w =
    match predict_try transaction (time_at w (ticks w)) (tick w) with
    | (Ok r, w1) => (Ok r, w1)
    | (Raise e, w1) => predict_except (time_at w (ticks w)) e w1
    end.
Proof. reflexivity. Qed.

Lemma predict_except_returns (request_start : float) (e : exn) (w : World) :
  ∃ metrics w',
    predict_except request_start e w = (Ok (false, metrics), w') ∧
    success metrics = false ∧ error_message metrics = Some (str e).
Proof.
  unfold predict_except, bind, ret, time_time, datetime_now_isoformat.
  eexists _, _. repeat split.
Qed.

(** ** Request executor *)

Example predict_on_400 :
  fst (predict fixture_transaction (fixture_world (λ _, 0) bad_request_endpoint))
  = Ok (false,
        {| request_time := 0; inference_time := 0; total_time := 4000000;
           success := false; error_message := Some "400 Client Error";
           timestamp := Some "2024-01-01T00:00:00" |}).
Proof. reflexivity. Qed.

Example predict_on_400_attempts :
  attempts_made
    (snd (predict fixture_transaction (fixture_world (λ _, 0) bad_request_endpoint)))
  = 1%nat.
Proof. reflexivity. Qed.

Example predict_on_missing_feature :
  fst (predict ∅ (fixture_world (λ _, 0) (stub_endpoint 0.9)))
  = Ok (false,
        {| request_time := 0; inference_time := 0; total_time := 1000000;
           success := false; error_message := Some "'amount'";
           timestamp := Some "2024-01-01T00:00:00" |}).
Proof. reflexivity. Qed.

Example predict_on_score_09 :
  fst (predict fixture_transaction (fixture_world (λ _, 0) (stub_endpoint 0.9)))
  = Ok (true,
        {| request_time := 1000000; inference_time := 1000000;
           total_time := 3000000; success := true; error_message := None;
           timestamp := Some "2024-01-01T00:00:00" |}).
Proof. reflexivity. Qed.

(** C3: predict returns normally on every transaction and in every
    world. When the try block raises, at the encoder, the transport, the
    status check or the decoder, the exception comes back as data: the
    classification is False and the record has success = False and the
    exception's message, which is not empty. *)
Theorem predict_never_raises (transaction : gmap string pyval) (w : World) :
  ∃ positive metrics w',
    predict transaction w = (Ok (positive, metrics), w') ∧
    match predict_try transaction (time_at w (ticks w)) (tick w) with
    | (Ok r, _) => r = (positive, metrics) ∧ success metrics = true
    | (Raise e, _) =>
        positive = false ∧ success metrics = false ∧
        error_message metrics = Some (str e) ∧ str e ≠ ""
    end.
Proof.
  pose proof (predict_try_cases transaction (time_at w (ticks w)) (tick w)) as Hc.
  rewrite predict_unfold.
  destruct (predict_try transaction (time_at w (ticks w)) (tick w))
    as [[[positive metrics] | e] w1].
  - exists positive, metrics, w1. destruct Hc as [Hs _]. auto.
  - destruct (predict_except_returns (time_at w (ticks w)) e w1)
      as (metrics & w' & Hrun & Hs & Hm).
    exists false, metrics, w'. auto.
Qed.

(** A reply that passes the status check and decodes to a float score. *)
Lemma predict_decoded (transaction : gmap string pyval) (w : World)
    (payload : pyval) (resp : Response) (result : pyval) (score : float) :
  prepare_request_payload transaction = Ok payload →
  endpoint w (attempts_made w) payload = Replied resp →
  raise_for_status resp = Ok () →
  response_json resp = Ok result →
  fraud_score_of result = Ok (PyFloat score) →
  ∃ metrics w',
    predict transaction w = (Ok ((0.5 <? score)%float, metrics), w') ∧
    success metrics = true ∧ error_message metrics = None.
Proof.
  intros Hp He Hr Hj Hf.
  unfold predict, bind, try_except, time_time, predict_try, bind, lift, ret,
    time_time, datetime_now_isoformat.
  rewrite Hp.
  rewrite (session_post_replied payload (tick (tick w)) resp He).
  rewrite Hr, Hj, Hf. cbn.
  eexists _, _. repeat split; reflexivity.
Qed.

(** C5: when the reply passes the status check and its body decodes to a
    score, predict returns positive exactly when the score is strictly
    above 0.5, with success = True. In particular a score of 0.9 is
    classified positive and a score of 0.2 negative. *)
Theorem predict_threshold (transaction : gmap string pyval) (w : World)
    (payload : pyval) (resp : Response) (result : pyval) (score : float) :
  prepare_request_payload transaction = Ok payload →
  endpoint w (attempts_made w) payload = Replied resp →
  raise_for_status resp = Ok () →
  response_json resp = Ok result →
  fraud_score_of result = Ok (PyFloat score) →
  ∃ positive metrics w',
    predict transaction w = (Ok (positive, metrics), w') ∧
    (positive = true ↔ (0.5 <? score)%float = true) ∧
    success metrics = true ∧
    (score = 0.9%float → positive = true) ∧
    (score = 0.2%float → positive = false).
Proof.
  intros Hp He Hr Hj Hf.
  destruct (predict_decoded transaction w payload resp result score Hp He Hr Hj Hf)
    as (metrics & w' & Hrun & Hs & _).
  exists (0.5 <? score)%float, metrics, w'.
  repeat split; auto; intros ->; reflexivity.
Qed.

Lemma predict_threshold_witness :
  ∃ positive metrics w',
    predict fixture_transaction (fixture_world (λ _, 0) (stub_endpoint 0.9))
      = (Ok (positive, metrics), w') ∧
    (positive = true ↔ (0.5 <? 0.9)%float = true) ∧
    success metrics = true ∧
    (0.9%float = 0.9%float → positive = true) ∧
    (0.9%float = 0.2%float → positive = false).
Proof.
  eapply (predict_threshold fixture_transaction
            (fixture_world (λ _, 0) (stub_endpoint 0.9)) _ _ _ 0.9%float);
    reflexivity.
Defined.

(** Against the stub endpoint every transaction that encodes is classified
    by the stub's score alone. *)
Lemma predict_on_stub (transaction : gmap string pyval) (w : World)
    (payload : pyval) (score : float) :
  prepare_request_payload transaction = Ok payload →
  endpoint w = stub_endpoint score →
  ∃ metrics w',
    predict transaction w = (Ok ((0.5 <? score)%float, metrics), w') ∧
    success metrics = true.
Proof.
  intros Hp Hep.
  destruct (predict_decoded transaction w payload _ _ score Hp
              ltac:(rewrite Hep; reflexivity) eq_refl eq_refl eq_refl)
    as (metrics & w' & Hrun & Hs & _).
  eauto.
Qed.

(** C10: a request that fails on any exception path comes back with the
    classification False, and so does a successful request whose score
    is at most 0.5; the two results differ only in the success flag of
    the record. *)
Theorem predict_false_is_ambiguous
    (failing : gmap string pyval) (w1 : World) (e : exn) (w1' : World)
    (scored : gmap string pyval) (w2 : World)
    (payload : pyval) (resp : Response) (result : pyval) (score : float) :
  predict_try failing (time_at w1 (ticks w1)) (tick w1) = (Raise e, w1') →
  prepare_request_payload scored = Ok payload →
  endpoint w2 (attempts_made w2) payload = Replied resp →
  raise_for_status resp = Ok () →
  response_json resp = Ok result →
  fraud_score_of result = Ok (PyFloat score) →
  (score <=? 0.5)%float = true →
  ∃ metrics1 u1 metrics2 u2,
    predict failing w1 = (Ok (false, metrics1), u1) ∧
    success metrics1 = false ∧
    predict scored w2 = (Ok (false, metrics2), u2) ∧
    success metrics2 = true.
Proof.
  intros Hfail Hp He Hr Hj Hf Hle.
  destruct (predict_except_returns (time_at w1 (ticks w1)) e w1')
    as (m1 & u1 & Hrun1 & Hs1 & _).
  destruct (predict_decoded scored w2 payload resp result score Hp He Hr Hj Hf)
    as (m2 & u2 & Hrun2 & Hs2 & _).
  rewrite (le_half_not_gt score Hle) in Hrun2.
  exists m1, u1, m2, u2. rewrite predict_unfold, Hfail. auto.
Qed.

Lemma predict_false_is_ambiguous_witness :
  ∃ metrics1 u1 metrics2 u2,
    predict fixture_transaction (fixture_world (λ _, 0) dead_endpoint)
      = (Ok (false, metrics1), u1) ∧
    success metrics1 = false ∧
    predict fixture_transaction (fixture_world (λ _, 0) (stub_endpoint 0.2))
      = (Ok (false, metrics2), u2) ∧
    success metrics2 = true.
Proof.
  eapply (predict_false_is_ambiguous
            fixture_transaction (fixture_world (λ _, 0) dead_endpoint) _ _
            fixture_transaction (fixture_world (λ _, 0) (stub_endpoint 0.2))
            _ _ _ 0.2%float);
    reflexivity.
Defined.

(** ** Retry policy *)

Lemma send_attempts_pos (r : Retry) (method : string) (budget failures : nat)
    (wire : nat → attempt) :
  sendable wire →
  (1 ≤ attempts (send r method budget failures wire))%nat.
Proof.
  intros Hs. pose proof (Hs 0%nat) as H0.
  destruct budget; cbn [send];
    destruct (wire 0%nat) as [reason | resp | how reason | status | why];
    unfold failed, retried; cbn [attempts]; try lia;
    try (exfalso; exact (H0 why eq_refl));
    repeat case_match; unfold failed, retried; cbn [attempts]; lia.
Qed.

Lemma forcelist_codes (status : Z) :
  in_codes status (status_forcelist retry_strategy) = true ↔
  status = 429 ∨ status = 500 ∨ status = 502 ∨ status = 503 ∨ status = 504.
Proof.
  unfold in_codes; cbn [status_forcelist retry_strategy existsb].
  rewrite !orb_true_iff, !Z.eqb_eq. intuition discriminate.
Qed.

Lemma is_retry_without_header (method : string) (budget : nat) (status : Z) :
  is_method_retryable retry_strategy method = true →
  is_retry (remaining retry_strategy budget) method status false
    = in_codes status (status_forcelist retry_strategy).
Proof.
  intros Hm. unfold is_retry.
  change (is_method_retryable (remaining retry_strategy budget) method)
    with (is_method_retryable retry_strategy method).
  rewrite Hm. cbn [negb].
  change (status_forcelist (remaining retry_strategy budget))
    with (status_forcelist retry_strategy).
  destruct (in_codes status (status_forcelist retry_strategy)); [reflexivity |].
  rewrite andb_false_r. reflexivity.
Qed.

(** C2, as the claim states it: the retryable statuses would be 429 and
    every 5xx. Status 501 is a 5xx status outside the policy's list. *)
Lemma retryable_set_is_not_every_5xx :
  ¬ (∀ status : Z,
       in_codes status (status_forcelist retry_strategy) = true ↔
       status = 429 ∨ 500 ≤ status ≤ 599).
Proof.
  intros H. destruct (H 501) as [_ H501].
  assert (Hin : in_codes 501 (status_forcelist retry_strategy) = true)
    by (apply H501; right; lia).
  discriminate Hin.
Qed.

(** C2, amended: the policy's retryable statuses are exactly 429, 500,
    502, 503 and 504. For a request method the policy retries, a reply
    without a Retry-After header is retried just when its status is one
    of these, and with retries left an attempt is repeated just when it
    brought no reply (no connection, a read that timed out, a
    connection reset) or the reply is retried. A reply with any other
    4xx status and no Retry-After header ends the request, whatever its
    method, after exactly one attempt and no wait. *)
Theorem retry_policy_exact :
  (∀ status : Z,
     in_codes status (status_forcelist retry_strategy) = true ↔
     status = 429 ∨ status = 500 ∨ status = 502 ∨ status = 503 ∨ status = 504)
  ∧ (∀ (method : string) (budget : nat) (status : Z),
       is_method_retryable retry_strategy method = true →
       (is_retry (remaining retry_strategy budget) method status false = true ↔
        in_codes status (status_forcelist retry_strategy) = true))
  ∧ (∀ (method : string) (budget failures : nat) (wire : nat → attempt),
       is_method_retryable retry_strategy method = true →
       sendable wire →
       (∀ resp, wire 0%nat = Replied resp → retry_after resp = NoRetryAfter) →
       ((1 < attempts (send retry_strategy method (S budget) failures wire))%nat ↔
        no_reply (wire 0%nat) ∨
        (∃ resp, wire 0%nat = Replied resp ∧
           in_codes (status_code resp) (status_forcelist retry_strategy) = true)))
  ∧ (∀ (method : string) (budget failures : nat) (wire : nat → attempt)
       (resp : Response),
       wire 0%nat = Replied resp →
       400 ≤ status_code resp < 500 → status_code resp ≠ 429 →
       retry_after resp = NoRetryAfter →
       send retry_strategy method budget failures wire
         = {| outcome := Ok (Final resp); attempts := 1; sleeps := 0 |}).
Proof.
  split; [exact forcelist_codes |].
  split.
  { intros method budget status Hm.
    rewrite (is_retry_without_header method budget status Hm). reflexivity. }
  split.
  { intros method budget failures wire Hm Hs Hra. cbn [send].
    assert (Hpos : (1 ≤ attempts (send retry_strategy method budget (S failures)
                                   (λ k, wire (S k))))%nat).
    { apply send_attempts_pos. intros k why. apply Hs. }
    pose proof (Hs 0%nat) as H0.
    destruct (wire 0%nat) as [reason | resp | how reason | status | why] eqn:Hw.
    - unfold retried; cbn [attempts no_reply].
      split; [intros _; left; exact I | lia].
    - specialize (Hra resp eq_refl).
      unfold has_retry_after. rewrite Hra.
      rewrite (is_retry_without_header method (S budget) _ Hm).
      destruct (in_codes (status_code resp) (status_forcelist retry_strategy))
        eqn:Hin.
      + unfold sleep_for. rewrite Hra.
        cbn [respect_retry_after_header retry_strategy].
        unfold retried; cbn [attempts].
        split; [intros _; right; eauto | lia].
      + cbn [attempts no_reply]. split; [lia |].
        intros [[] | (resp' & [= <-] & Hyes)]. congruence.
    - unfold retries_read. rewrite Hm.
      cbn [read_retries retry_strategy andb].
      destruct how; unfold retried, failed; cbn [attempts no_reply].
      + split; [intros _; left; exact I | lia].
      + split; [intros _; left; exact I | lia].
      + split; [lia | intros [[] | (resp' & [=] & _)]].
    - cbn [attempts no_reply]. split; [lia | intros [[] | (resp' & [=] & _)]].
    - exfalso. exact (H0 why eq_refl). }
  intros method budget failures wire resp Hw Hrange Hne Hra.
  assert (Hno : is_retry (remaining retry_strategy budget) method
                  (status_code resp) (has_retry_after resp) = false).
  { unfold has_retry_after. rewrite Hra. unfold is_retry.
    destruct (negb (is_method_retryable (remaining retry_strategy budget) method));
      [reflexivity |].
    change (status_forcelist (remaining retry_strategy budget))
      with (status_forcelist retry_strategy).
    destruct (in_codes (status_code resp) (status_forcelist retry_strategy))
      eqn:Hin.
    - apply forcelist_codes in Hin. lia.
    - rewrite andb_false_r. reflexivity. }
  destruct budget; cbn [send]; rewrite Hw, Hno; reflexivity.
Qed.

Lemma retry_policy_exact_witness :
  send retry_strategy "GET" 3 0 (λ _, bad_request_endpoint 0%nat PyNone)
  = {| outcome := Ok (Final {| status_code := 400; retry_after := NoRetryAfter;
                               body := None |});
       attempts := 1; sleeps := 0 |}.
Proof.
  apply (proj2 (proj2 (proj2 retry_policy_exact))); cbn;
    [reflexivity | lia | lia | reflexivity].
Defined.

(** A GET answered 503, 503, 200: three attempts; the first retry is
    immediate, the second waits. *)
Example get_503_503_200 :
  send retry_strategy "GET" 3 0 flaky_wire
  = {| outcome := Ok (Final {| status_code := 200; retry_after := NoRetryAfter;
                               body := None |});
       attempts := 3; sleeps := 1 |}.
Proof. reflexivity. Qed.

(** Four refused connections: the waits are those after the second and
    the third. *)
Example get_refused_four_times :
  send retry_strategy "GET" 3 0 (λ _, Refused "NewConnectionError")
  = {| outcome := Raise (Exn ConnectionError
                    (max_retries_exceeded "NewConnectionError"));
       attempts := 4; sleeps := 2 |}.
Proof. reflexivity. Qed.

(** ** Aggregation without a single success *)

Lemma no_success_filter (metrics_list : list InferenceMetrics) :
  Forall (λ m, success m = false) metrics_list →
  filter (λ m, success m = true) metrics_list = [].
Proof.
  induction 1 as [| m ms Hm _ IH]; [reflexivity |].
  rewrite filter_cons, IH. destruct (decide (success m = true)); congruence.
Qed.

(** C1: when no request succeeded the statistics block of the latency
    run does not return a report: it raises ValueError from np.min. So
    does a whole latency run of one request against an endpoint that
    refuses the connection: the request comes back as a failed record
    and the aggregation raises. *)
Theorem latency_run_all_failed_raises (L : Numerics) :
  (∀ (num_requests : Z) (metrics_list : list InferenceMetrics),
     Forall (λ m, success m = false) metrics_list →
     latency_results L num_requests metrics_list =
       Raise (Exn ValueError
         "zero-size array to reduction operation minimum which has no identity"))
  ∧ fst (run_latency_test L 1 (fixture_world (λ _, 0) dead_endpoint)) =
      Raise (Exn ValueError
        "zero-size array to reduction operation minimum which has no identity").
Proof.
  split; [| reflexivity].
  intros num_requests metrics_list H.
  unfold latency_results. rewrite (no_success_filter _ H). reflexivity.
Qed.

(** ** Sampler *)

(** C6: a sample drawn when the third draw of [random] is 12 and the
    others are 3, and [np.random] hands out 1, 2, 3, 4. The hour is 12
    while is_night is 1, and amount is 1 while log_amount is log1p of 2
    and amount_squared is the square of 3: each derived field comes from
    a draw of its own. *)
Theorem sample_is_inconsistent (L : Numerics) :
  ∃ transaction w',
    generate_sample_transaction L (fixture_world noon_then_three dead_endpoint)
      = (Ok transaction, w') ∧
    transaction !! "hour" = Some (PyInt 12) ∧
    transaction !! "is_night" = Some (PyInt 1) ∧
    transaction !! "amount" = Some (PyFloat 1) ∧
    transaction !! "log_amount" = Some (PyFloat (log1p L 2)) ∧
    transaction !! "amount_squared" = Some (PyFloat (pow L 3 2)).
Proof. eexists _, _. repeat split. Qed.

(** In every world the hour is read off the third draw of [random] and
    is_night off the sixth. *)
Lemma sample_hour_and_night (L : Numerics) (w : World) :
  ∃ transaction w',
    generate_sample_transaction L w = (Ok transaction, w') ∧
    transaction !! "hour"
      = Some (PyInt (0 + randint_raw w (draws w + 2)%nat `mod` (23 - 0 + 1))) ∧
    transaction !! "is_night"
      = Some (PyInt (if 0 + randint_raw w (draws w + 5)%nat `mod` (23 - 0 + 1) <? 6
                     then 1 else 0)).
Proof.
  eexists _, _. split; [reflexivity |].
  cbn [draws drawn np_drawn randint_raw].
  replace (draws w + 2)%nat with (S (S (draws w))) by lia.
  replace (draws w + 5)%nat with (S (S (S (S (S (draws w)))))) by lia.
  split; reflexivity.
Qed.


(** ** Scheduler *)

Lemma generate_sample_transaction_returns (L : Numerics) (w : World) :
  ∃ transaction w', generate_sample_transaction L w = (Ok transaction, w').
Proof. eexists _, _. reflexivity. Qed.

Lemma predict_returns (transaction : gmap string pyval) (w : World) :
  ∃ r w', predict transaction w = (Ok r, w').
Proof.
  rewrite predict_unfold.
  destruct (predict_try transaction (time_at w (ticks w)) (tick w))
    as [[r | e] w1]; [eauto |].
  destruct (predict_except_returns (time_at w (ticks w)) e w1)
    as (metrics & w' & Hrun & _). eauto.
Qed.

Lemma worker_unfold (L : Numerics) (i : Z) (w : World) :
  worker L i w =
    match generate_sample_transaction L w with
    | (Ok transaction, w1) =>
        match predict transaction w1 with
        | (Ok r, w2) => (Ok (snd r), w2)
        | (Raise e, w2) => (Raise e, w2)
        end
    | (Raise e, w1) => (Raise e, w1)
    end.
Proof. reflexivity. Qed.

Lemma latency_loop_unfold (L : Numerics) (n : nat)
    (acc : list InferenceMetrics) (w : World) :
  latency_loop L (S n) acc w =
    match generate_sample_transaction L w with
    | (Ok transaction, w1) =>
        match predict transaction w1 with
        | (Ok r, w2) => latency_loop L n (acc ++ [snd r]) w2
        | (Raise e, w2) => (Raise e, w2)
        end
    | (Raise e, w1) => (Raise e, w1)
    end.
Proof. reflexivity. Qed.


Lemma latency_loop_in_order (L : Numerics) (n : nat) :
  ∀ (i : Z) (acc : list InferenceMetrics) (w : World),
  ∃ ml w', latency_loop L n acc w = (Ok (acc ++ ml), w') ∧
           length ml = n ∧ issued_in_order L i w ml w'.
Proof.
  induction n as [| n IH]; intros i acc w.
  - exists [], w. rewrite app_nil_r. repeat split.
  - rewrite latency_loop_unfold.
    pose proof (worker_unfold L i w) as Hw.
    destruct (generate_sample_transaction L w) as [[tx | e] w1] eqn:Hgen.
    2: { destruct (generate_sample_transaction_returns L w) as (? & ? & H).
         congruence. }
    destruct (predict tx w1) as [[r | e] w2] eqn:Hp.
    2: { destruct (predict_returns tx w1) as (? & ? & H). congruence. }
    destruct (IH (i + 1) (acc ++ [snd r]) w2) as (ml & w' & Hloop & Hlen & Hord).
    exists (snd r :: ml), w'. split; [| split].
    + rewrite Hloop, <- app_assoc. reflexivity.
    + cbn. lia.
    + cbn [issued_in_order]. exists w2. split; assumption.
Qed.

Lemma step_ids (L : Numerics) (W : Z) (s s' : Pool) :
  step L W s s' → pool_ids s' ≡ₚ pool_ids s.
Proof.
  destruct 1; unfold pool_ids; cbn [queue running done yielded];
    rewrite ?map_app; cbn [map fst]; solve_Permutation.
Qed.

Lemma step_matched (L : Numerics) (W : Z) (s s' : Pool) :
  step L W s s' → results_matched L s → results_matched L s'.
Proof.
  destruct 1 as [i q run dn ml ys w Hfree
                | i q run1 run2 dn ml ys w metrics w' Hrun
                | i metrics q run dn1 dn2 ml ys w];
    unfold results_matched; cbn [done yielded metrics_list]; intros [Hd Hy].
  - split; assumption.
  - split; [| assumption].
    apply Forall_app. split; [assumption |].
    apply Forall_singleton. exists w, w'. exact Hrun.
  - apply Forall_app in Hd as [Hd1 Hd2].
    apply Forall_cons in Hd2 as [Hi Hd2]. split.
    + apply Forall_app. split; assumption.
    + apply Forall2_app; [assumption |].
      constructor; [exact Hi | constructor].
Qed.

Lemma step_measure (L : Numerics) (W : Z) (s s' : Pool) :
  step L W s s' → S (pool_measure s') = pool_measure s.
Proof.
  destruct 1; unfold pool_measure; cbn [queue running done];
    rewrite ?length_app; cbn [length]; lia.
Qed.

Lemma steps_invariant (L : Numerics) (W : Z) (s s' : Pool) :
  steps L W s s' →
  pool_ids s' ≡ₚ pool_ids s ∧ (results_matched L s → results_matched L s').
Proof.
  induction 1 as [s | s1 s2 s3 Hstep _ [IHids IHres]].
  - split; [reflexivity | auto].
  - split.
    + rewrite IHids. eapply step_ids, Hstep.
    + intros H. apply IHres. eapply step_matched; eassumption.
Qed.



Lemma range_length (n : Z) : 0 ≤ n → len (range n) = n.
Proof. intros H. unfold len, range. rewrite length_map, length_seq. lia. Qed.

Lemma drained_run_collects (L : Numerics) (N W : Z) (w : World) (s : Pool) :
  0 ≤ N → steps L W (submitted N w) s → drained s →
  len (metrics_list s) = N ∧ yielded s ≡ₚ range N ∧
  Forall2 (result_of L) (yielded s) (metrics_list s).
Proof.
  intros HN Hrun (Hq & Hr & Hd).
  destruct (steps_invariant L W _ _ Hrun) as [Hids Hres].
  destruct Hres as [_ Hmatch]; [split; constructor |].
  unfold pool_ids in Hids. rewrite Hq, Hr, Hd in Hids.
  cbn [submitted queue running done yielded map app] in Hids.
  rewrite !app_nil_r in Hids. split; [| split; assumption].
  unfold len. rewrite <- (Forall2_length _ _ _ Hmatch), Hids.
  apply (range_length N HN).
Qed.

(** The report of a throughput run is computed from exactly
    [num_requests] records; without workers there is no run. *)
Lemma run_throughput_test_collects (L : Numerics)
    (num_requests concurrent_clients : Z) (w : World)
    (result : pyresult pyval) (w' : World) :
  0 ≤ num_requests →
  run_throughput_test L num_requests concurrent_clients w result w' →
  if decide (concurrent_clients ≤ 0) then
    result = Raise (Exn ValueError "max_workers must be greater than 0")
  else
    ∃ ml start_time end_time,
      len ml = num_requests ∧
      result = throughput_results L num_requests concurrent_clients ml
                 start_time end_time.
Proof.
  intros HN. unfold run_throughput_test.
  destruct (decide (concurrent_clients ≤ 0)); [intros [H _]; exact H |].
  intros (s & Hrun & Hdr & Hres & _).
  destruct (drained_run_collects L _ _ _ s HN Hrun Hdr) as [Hlen _].
  eauto.
Qed.



(** ** Aggregator *)

(** C7, as the claim states it: the success rate would be the number
    of successes over the number of requests. With one success among
    two requests the report says 50, not one half. *)
Lemma success_rate_is_not_the_ratio :
  ¬ (∀ (L : Numerics) (num_requests concurrent_clients : Z)
       (metrics_list : list InferenceMetrics) (start_time end_time : float)
       (report : gmap string pyval),
       throughput_results L num_requests concurrent_clients metrics_list
         start_time end_time = Ok (PyDict report) →
       report !! "success_rate" =
         Some (PyFloat (float_of_int
                          (len (filter (λ m, success m = true) metrics_list))
                        / float_of_int num_requests))).
Proof.
  intros H.
  specialize (H fixture_numerics 2 10 [fixture_success; fixture_failure]
                0%float 1%float _ eq_refl).
  apply (f_equal (λ o, match o with
                       | Some (PyFloat x) => (x <? 1)%float
                       | _ => false
                       end)) in H.
  vm_compute in H. discriminate H.
Qed.

Example success_rate_one_of_two :
  pbind (throughput_results fixture_numerics 2 10
           [fixture_success; fixture_failure] 0 1)
        (λ report, getitem_str report "success_rate")
  = Ok (PyFloat 50).
Proof. reflexivity. Qed.

(** C7, amended: when the request count is not zero, the run took time
    and numpy returns the two latency entries, the report is returned;
    its success rate is the number of successes over the number of
    requests, times 100 (a percentage), and its throughput is the
    number of requests over the duration of the run. *)
Theorem throughput_rates (L : Numerics) (num_requests concurrent_clients : Z)
    (metrics_list : list InferenceMetrics) (start_time end_time : float)
    (latency_entry inference_entry : pyval) :
  let successful := filter (λ m, success m = true) metrics_list in
  num_requests ≠ 0 →
  (end_time - start_time =? 0)%float = false →
  latency_block L (map total_time successful) = Ok latency_entry →
  inference_latency_block L (map inference_time successful) = Ok inference_entry →
  ∃ report : gmap string pyval,
    throughput_results L num_requests concurrent_clients metrics_list
      start_time end_time = Ok (PyDict report) ∧
    report !! "success_rate" =
      Some (PyFloat (float_of_int (len successful) / float_of_int num_requests
                     * 100)) ∧
    report !! "throughput_rps" =
      Some (PyFloat (float_of_int num_requests / (end_time - start_time))) ∧
    report !! "num_requests" = Some (PyInt num_requests) ∧
    report !! "successful_requests" = Some (PyInt (len successful)).
Proof.
  intros successful HN Hdur Hlat Hinf.
  unfold throughput_results. fold successful.
  unfold int_truediv, int_float_truediv.
  rewrite (proj2 (Z.eqb_neq num_requests 0) HN), Hdur.
  cbn [pbind]. rewrite Hlat, Hinf. cbn [pbind].
  eexists. split; [reflexivity |]. repeat split.
Qed.

Lemma throughput_rates_witness :
  ∃ report : gmap string pyval,
    throughput_results fixture_numerics 2 10 [fixture_success; fixture_failure]
      0%float 1%float = Ok (PyDict report) ∧
    report !! "success_rate" =
      Some (PyFloat (float_of_int
                       (len (filter (λ m, success m = true)
                                    [fixture_success; fixture_failure]))
                     / float_of_int 2 * 100)) ∧
    report !! "throughput_rps" = Some (PyFloat (float_of_int 2 / (1 - 0))) ∧
    report !! "num_requests" = Some (PyInt 2) ∧
    report !! "successful_requests" =
      Some (PyInt (len (filter (λ m, success m = true)
                               [fixture_success; fixture_failure]))).
Proof.
  eapply (throughput_rates fixture_numerics 2 10
            [fixture_success; fixture_failure] 0%float 1%float);
    [lia | reflexivity | reflexivity | reflexivity].
Defined.

(** * Further properties *)

(** ** Transport *)

Lemma post_reads_are_not_retried (how : breakage) :
  retries_read retry_strategy "POST" how = false.
Proof. destruct how; reflexivity. Qed.

Lemma backoff_step (failures k : nat) :
  ((if backs_off retry_strategy (S failures) then 1 else 0)
   + waits_after (S failures) k)%nat = waits_after failures (S k).
Proof. destruct failures; reflexivity. Qed.

Lemma refused_until_shift (wire : nat → attempt) (k : nat) :
  refused_until wire (S k) → refused_until (λ j, wire (S j)) k.
Proof. intros H j Hj. apply H. lia. Qed.

(** The client's POST after [k] refused connections, [k] within the
    budget: the reply of the next attempt is handed back. *)
Lemma send_post_after_refusals (k : nat) :
  ∀ (budget failures : nat) (wire : nat → attempt) (rep : reply),
  (k ≤ budget)%nat →
  refused_until wire k →
  answers (wire k) rep →
  send retry_strategy "POST" budget failures wire
    = {| outcome := Ok rep; attempts := S k;
         sleeps := waits_after failures k |}.
Proof.
  induction k as [| k IH]; intros budget failures wire rep Hk Hpre Hans.
  - assert (Hw : waits_after failures 0 = 0%nat) by (destruct failures; reflexivity).
    rewrite Hw.
    destruct (wire 0%nat) as [reason | resp | how reason | status | why] eqn:H0;
      destruct rep as [resp' | status']; cbn in Hans; try contradiction; subst.
    + destruct budget; cbn [send]; rewrite H0, post_is_not_retried; reflexivity.
    + destruct budget; cbn [send]; rewrite H0; reflexivity.
  - destruct budget as [| budget]; [lia |].
    destruct (Hpre 0%nat ltac:(lia)) as [reason H0].
    cbn [send]. rewrite H0.
    rewrite (IH budget (S failures) (λ j, wire (S j)) rep);
      [| lia | apply refused_until_shift, Hpre | exact Hans].
    unfold retried. cbn [outcome attempts sleeps].
    rewrite backoff_step. reflexivity.
Qed.

(** The client's POST when every attempt the budget allows is refused:
    it fails with the last cause. *)
Lemma send_post_all_refused (budget : nat) :
  ∀ (failures : nat) (wire : nat → attempt),
  refused_until wire (S budget) →
  ∃ reason,
    wire budget = Refused reason ∧
    send retry_strategy "POST" budget failures wire
      = {| outcome := Raise (Exn ConnectionError (max_retries_exceeded reason));
           attempts := S budget; sleeps := waits_after failures budget |}.
Proof.
  induction budget as [| budget IH]; intros failures wire Hall.
  - destruct (Hall 0%nat ltac:(lia)) as [reason H0]. exists reason.
    split; [exact H0 |]. cbn [send]. rewrite H0.
    destruct failures; reflexivity.
  - destruct (IH (S failures) (λ j, wire (S j))) as (reason & Hlast & Hsend);
      [apply refused_until_shift, Hall |].
    exists reason. split; [exact Hlast |].
    destruct (Hall 0%nat ltac:(lia)) as [reason0 H0].
    cbn [send]. rewrite H0, Hsend. unfold retried. cbn [outcome attempts sleeps].
    rewrite backoff_step. reflexivity.
Qed.

(** The client's POST when an attempt within the budget breaks after
    the request went out, or cannot be sent: it fails there, retries
    left or not. *)
Lemma send_post_gives_up (k : nat) :
  ∀ (budget failures : nat) (wire : nat → attempt),
  (k ≤ budget)%nat →
  refused_until wire k →
  gives_up (wire k) →
  ∃ e,
    outcome (send retry_strategy "POST" budget failures wire) = Raise e ∧
    (attempts (send retry_strategy "POST" budget failures wire) ≤ S k)%nat ∧
    sleeps (send retry_strategy "POST" budget failures wire)
      = waits_after failures k.
Proof.
  induction k as [| k IH]; intros budget failures wire Hk Hpre Hg.
  - assert (Hw : waits_after failures 0 = 0%nat) by (destruct failures; reflexivity).
    rewrite Hw.
    destruct (wire 0%nat) as [reason | resp | how reason | status | why] eqn:H0;
      cbn in Hg; try contradiction.
    + destruct budget; cbn [send]; rewrite H0, post_reads_are_not_retried;
        eexists; repeat split; cbn; lia.
    + destruct budget; cbn [send]; rewrite H0; eexists; repeat split; cbn; lia.
  - destruct budget as [| budget]; [lia |].
    destruct (Hpre 0%nat ltac:(lia)) as [reason H0].
    destruct (IH budget (S failures) (λ j, wire (S j)))
      as (e & Ho & Ha & Hs);
      [lia | apply refused_until_shift, Hpre | exact Hg |].
    exists e. cbn [send]. rewrite H0. unfold retried.
    cbn [outcome attempts sleeps]. rewrite Hs, backoff_step.
    repeat split; [exact Ho | lia].
Qed.

(** Where a wire stops refusing. *)
Lemma first_unrefused (wire : nat → attempt) (n : nat) :
  refused_until wire n ∨
  ∃ k, (k < n)%nat ∧ refused_until wire k ∧
       ((∃ rep, answers (wire k) rep) ∨ gives_up (wire k)).
Proof.
  induction n as [| n [IH | (k & Hk & Hpre & Hend)]].
  - left. intros j Hj. lia.
  - destruct (wire n) as [reason | resp | how reason | status | why] eqn:Hn.
    + left. intros j Hj.
      destruct (decide (j = n)) as [-> | Hne]; [eauto | apply IH; lia].
    + right. exists n. rewrite Hn. split; [lia |]. split; [exact IH |].
      left. exists (Final resp). reflexivity.
    + right. exists n. rewrite Hn. split; [lia |]. split; [exact IH |].
      right. exact I.
    + right. exists n. rewrite Hn. split; [lia |]. split; [exact IH |].
      left. exists (Follow status). reflexivity.
    + right. exists n. rewrite Hn. split; [lia |]. split; [exact IH |].
      right. exact I.
  - right. exists k. split; [lia |]. split; [exact Hpre | exact Hend].
Qed.

(** X1: the client's POST hands back a reply exactly when, within its
    three retries, the connection is refused some k times and the next
    attempt is answered; it has then made k+1 attempts and waited after
    every refusal but the first. *)
Theorem post_returns_iff (wire : nat → attempt) (rep : reply) (n s : nat) :
  send retry_strategy "POST" 3 0 wire
    = {| outcome := Ok rep; attempts := n; sleeps := s |}
  ↔ ∃ k, (k ≤ 3)%nat ∧ refused_until wire k ∧ answers (wire k) rep ∧
         n = S k ∧ s = Nat.pred k.
Proof.
  split.
  - intros Hsend.
    destruct (first_unrefused wire 4) as [Hall | (k & Hk & Hpre & [[rep' Ha] | Hg])].
    + destruct (send_post_all_refused 3 0 wire Hall) as (reason & _ & Hs).
      rewrite Hs in Hsend. discriminate.
    + rewrite (send_post_after_refusals k 3 0 wire rep') in Hsend;
        [| lia | exact Hpre | exact Ha].
      injection Hsend as <- <- <-. exists k. repeat split; [lia | exact Hpre | exact Ha].
    + destruct (send_post_gives_up k 3 0 wire) as (e & Ho & _);
        [lia | exact Hpre | exact Hg |].
      rewrite Hsend in Ho. discriminate.
  - intros (k & Hk & Hpre & Ha & -> & ->).
    apply (send_post_after_refusals k 3 0 wire rep Hk Hpre Ha).
Qed.

(** X2: the client's POST raises exactly when all four attempts are
    refused, or when an attempt within the budget breaks after the
    request went out or cannot be sent at all. Four refusals take four
    attempts and two waits. *)
Theorem post_raises_iff (wire : nat → attempt) :
  ((∃ e, outcome (send retry_strategy "POST" 3 0 wire) = Raise e)
   ↔ refused_until wire 4 ∨
     ∃ k, (k ≤ 3)%nat ∧ refused_until wire k ∧ gives_up (wire k))
  ∧ (refused_until wire 4 →
     attempts (send retry_strategy "POST" 3 0 wire) = 4%nat ∧
     sleeps (send retry_strategy "POST" 3 0 wire) = 2%nat).
Proof.
  split; [split |].
  - intros [e He].
    destruct (first_unrefused wire 4) as [Hall | (k & Hk & Hpre & [[rep Ha] | Hg])].
    + left. exact Hall.
    + rewrite (send_post_after_refusals k 3 0 wire rep) in He;
        [discriminate | lia | exact Hpre | exact Ha].
    + right. exists k. split; [lia |]. split; [exact Hpre | exact Hg].
  - intros [Hall | (k & Hk & Hpre & Hg)].
    + destruct (send_post_all_refused 3 0 wire Hall) as (reason & _ & Hs).
      rewrite Hs. eauto.
    + destruct (send_post_gives_up k 3 0 wire Hk Hpre Hg) as (e & Ho & _). eauto.
  - intros Hall.
    destruct (send_post_all_refused 3 0 wire Hall) as (reason & _ & Hs).
    rewrite Hs. split; reflexivity.
Qed.

(** The client's POST: a connection refused k times, k within the three
    retries, and accepted then, returns the reply after k+1 attempts. *)
Lemma session_post_after_refusals (payload : pyval) (w : World)
    (resp : Response) (k : nat) :
  (k ≤ 3)%nat →
  (∀ j, (j < k)%nat →
        ∃ reason, endpoint w (attempts_made w + j)%nat payload = Refused reason) →
  endpoint w (attempts_made w + k)%nat payload = Replied resp →
  session_post payload w = (Ok resp, attempted (S k) (Nat.pred k) w).
Proof.
  intros Hk Hpre Hwk. rewrite session_post_unfold. cbv zeta.
  rewrite (send_post_after_refusals k 3 0 _ (Final resp) Hk Hpre)
    by (cbn beta; rewrite Hwk; reflexivity).
  reflexivity.
Qed.

(** ** Encoder *)

Lemma comprehension_ok_iff {A B : Type} (f : A → pyresult B) (xs : list A)
    (ys : list B) :
  comprehension f xs = Ok ys ↔ Forall2 (λ x y, f x = Ok y) xs ys.
Proof.
  revert ys. induction xs as [| x xs IH]; intros ys; cbn.
  - split; [intros [= <-]; constructor | intros H; inversion H; reflexivity].
  - destruct (f x) as [y | e] eqn:Hx; cbn.
    + destruct (comprehension f xs) as [ys' | e] eqn:Hxs; cbn.
      * split.
        -- intros [= <-]. constructor; [exact Hx | apply IH; reflexivity].
        -- intros H. inversion H as [| ? y0 ? ys0 Hy Hys]; subst.
           apply IH in Hys. congruence.
      * split; [discriminate |].
        intros H. inversion H as [| ? y0 ? ys0 Hy Hys]; subst.
        apply IH in Hys. discriminate.
    + split; [discriminate |].
      intros H. inversion H as [| ? y0 ? ys0 Hy Hys]; subst. congruence.
Qed.

Lemma comprehension_first_raise {A B : Type} (f : A → pyresult B)
    (pre : list A) (x : A) (post : list A) (e : exn) :
  (∀ x', x' ∈ pre → ∃ y, f x' = Ok y) → f x = Raise e →
  comprehension f (pre ++ x :: post) = Raise e.
Proof.
  intros Hpre Hx. induction pre as [| x' pre IH]; cbn.
  - rewrite Hx. reflexivity.
  - destruct (Hpre x') as [y ->]; [left |]. cbn.
    rewrite IH; [reflexivity |]. intros x'' Hin. apply Hpre. now right.
Qed.

Lemma comprehension_ext {A B : Type} (f g : A → pyresult B) (xs : list A) :
  (∀ x, x ∈ xs → f x = g x) → comprehension f xs = comprehension g xs.
Proof.
  induction xs as [| x xs IH]; intros H; cbn; [reflexivity |].
  rewrite (H x) by left. rewrite IH; [reflexivity |].
  intros x' Hin. apply H. now right.
Qed.

Lemma dict_getitem_ok (d : gmap string pyval) (key : string) (v : pyval) :
  dict_getitem d key = Ok v ↔ d !! key = Some v.
Proof.
  unfold dict_getitem. destruct (d !! key); split; congruence.
Qed.

(** X3: encoding succeeds exactly when the transaction holds every one of
    the fifteen features; when one is missing, the encoder raises
    KeyError for the first missing feature in schema order. *)
Theorem prepare_request_payload_needs_every_feature
    (transaction : gmap string pyval) :
  ((∃ payload, prepare_request_payload transaction = Ok payload) ↔
   (∀ name, name ∈ feature_names → is_Some (transaction !! name)))
  ∧ (∀ pre name post,
       feature_names = pre ++ name :: post →
       (∀ n, n ∈ pre → is_Some (transaction !! n)) →
       transaction !! name = None →
       prepare_request_payload transaction
         = Raise (Exn KeyError ("'" +:+ name +:+ "'"))).
Proof.
  split.
  - unfold prepare_request_payload. split.
    + intros [payload H].
      destruct (comprehension (dict_getitem transaction) feature_names)
        as [row | e] eqn:Hrow; [| discriminate].
      apply comprehension_ok_iff in Hrow.
      intros name Hin. apply list_elem_of_lookup in Hin as [i Hi].
      destruct (Forall2_lookup_l _ _ _ _ _ Hrow Hi) as (v & _ & Hv).
      apply dict_getitem_ok in Hv. rewrite Hv. eauto.
    + intros Hall.
      destruct (comprehension (dict_getitem transaction) feature_names)
        as [row | e] eqn:Hrow; [cbn; eauto |].
      apply comprehension_raises in Hrow as (name & Hin & Hname).
      destruct (Hall name Hin) as [v Hv].
      unfold dict_getitem in Hname. rewrite Hv in Hname. discriminate.
  - intros pre name post Hsplit Hpre Hmiss.
    unfold prepare_request_payload. rewrite Hsplit.
    rewrite (comprehension_first_raise _ pre name post
               (Exn KeyError ("'" +:+ name +:+ "'"))); [reflexivity | |].
    + intros n Hn. destruct (Hpre n Hn) as [v Hv]. exists v.
      apply dict_getitem_ok, Hv.
    + unfold dict_getitem. rewrite Hmiss. reflexivity.
Qed.

Example prepare_request_payload_without_hour :
  prepare_request_payload (delete "hour" fixture_transaction)
  = Raise (Exn KeyError "'hour'").
Proof. reflexivity. Qed.

(** X4: the request body depends on the fifteen features only: two
    transactions that agree on them are encoded alike, so keys beside
    the schema are ignored. *)
Theorem prepare_request_payload_ignores_other_keys
    (transaction1 transaction2 : gmap string pyval) :
  (∀ name, name ∈ feature_names → transaction1 !! name = transaction2 !! name) →
  prepare_request_payload transaction1 = prepare_request_payload transaction2.
Proof.
  intros H. unfold prepare_request_payload.
  rewrite (comprehension_ext (dict_getitem transaction1) (dict_getitem transaction2));
    [reflexivity |].
  intros name Hin. unfold dict_getitem. rewrite (H name Hin). reflexivity.
Qed.

Lemma prepare_request_payload_ignores_other_keys_witness :
  prepare_request_payload (<["user_id" := PyInt 7]> fixture_transaction)
  = prepare_request_payload fixture_transaction.
Proof.
  apply prepare_request_payload_ignores_other_keys.
  intros name Hin. unfold feature_names in Hin.
  repeat (apply elem_of_cons in Hin as [-> | Hin]; [reflexivity |]).
  apply elem_of_nil in Hin. destruct Hin.
Defined.

(** X5: the body the encoder builds reads back: its single input holds
    one data row with the transaction's value of each feature, in schema
    order, and declares the shape [1, n] for the n values it carries. *)
Theorem prepare_request_payload_reads_back
    (transaction : gmap string pyval) (payload : pyval) :
  prepare_request_payload transaction = Ok payload →
  ∃ row,
    payload_row payload = Ok (PyList row) ∧
    Forall2 (λ name v, transaction !! name = Some v) feature_names row ∧
    payload_shape payload = Ok (PyList [PyInt 1; PyInt (len row)]) ∧
    len row = 15.
Proof.
  unfold prepare_request_payload.
  destruct (comprehension (dict_getitem transaction) feature_names)
    as [row | e] eqn:Hrow; [| discriminate].
  cbn [pbind]. intros [= <-].
  apply comprehension_ok_iff in Hrow.
  assert (Hlen : len row = 15).
  { unfold len. rewrite <- (Forall2_length _ _ _ Hrow). reflexivity. }
  exists row. split; [reflexivity |]. split; [| split; [| exact Hlen]].
  - eapply Forall2_impl; [exact Hrow |].
    intros name v Hv. apply dict_getitem_ok, Hv.
  - rewrite Hlen. reflexivity.
Qed.

Lemma prepare_request_payload_reads_back_witness :
  ∃ row,
    payload_row
      (PyDict {[ "inputs" :=
         PyList [ PyDict (list_to_map
           [ ("name", PyStr "float_input");
             ("shape", PyList [PyInt 1; PyInt 15]);
             ("datatype", PyStr "FP32");
             ("data", PyList [PyList
                [ PyFloat 120.5; PyInt 17; PyInt 3; PyInt 14; PyInt 2; PyInt 9;
                  PyInt 0; PyInt 0; PyFloat 4.8; PyFloat 14520.25; PyInt 0;
                  PyInt 0; PyInt 1; PyInt 0; PyInt 1 ]]) ]) ] ]})
      = Ok (PyList row) ∧
    Forall2 (λ name v, fixture_transaction !! name = Some v) feature_names row ∧
    payload_shape
      (PyDict {[ "inputs" :=
         PyList [ PyDict (list_to_map
           [ ("name", PyStr "float_input");
             ("shape", PyList [PyInt 1; PyInt 15]);
             ("datatype", PyStr "FP32");
             ("data", PyList [PyList
                [ PyFloat 120.5; PyInt 17; PyInt 3; PyInt 14; PyInt 2; PyInt 9;
                  PyInt 0; PyInt 0; PyFloat 4.8; PyFloat 14520.25; PyInt 0;
                  PyInt 0; PyInt 1; PyInt 0; PyInt 1 ]]) ]) ] ]})
      = Ok (PyList [PyInt 1; PyInt (len row)]) ∧
    len row = 15.
Proof.
  apply (prepare_request_payload_reads_back fixture_transaction). reflexivity.
Defined.

(** ** Sampler *)

(** X6: every sample holds exactly the fifteen features of the schema, so
    the encoder accepts it: sampling followed by encoding never raises. *)
Theorem sample_encodes (L : Numerics) (w : World) :
  ∃ transaction w' payload,
    generate_sample_transaction L w = (Ok transaction, w') ∧
    dom transaction = list_to_set feature_names ∧
    prepare_request_payload transaction = Ok payload.
Proof.
  eexists _, _, _. split; [reflexivity |]. split.
  - rewrite dom_list_to_map_L. reflexivity.
  - reflexivity.
Qed.

Lemma randint_in_range (a b raw : Z) :
  a ≤ b → a ≤ a + raw `mod` (b - a + 1) ≤ b.
Proof.
  intros H. pose proof (Z.mod_pos_bound raw (b - a + 1) ltac:(lia)). lia.
Qed.

(** X7: in every sample the integer fields lie in the ranges the sampler
    asks for: merchant_id in 1..1000, country in 1..50, hour in 0..23,
    day_of_week in 0..6, day_of_month in 1..28, total_risk_factors in
    0..4, and the six flags are 0 or 1. *)
Theorem sample_in_range (L : Numerics) (w : World) :
  ∃ transaction w' merchant_id country hour day_of_week day_of_month
    is_night is_weekend high_amount unusual_time high_risk_device
    high_risk_transaction total_risk_factors,
    generate_sample_transaction L w = (Ok transaction, w') ∧
    (transaction !! "merchant_id" = Some (PyInt merchant_id) ∧
     1 ≤ merchant_id ≤ 1000) ∧
    (transaction !! "country" = Some (PyInt country) ∧ 1 ≤ country ≤ 50) ∧
    (transaction !! "hour" = Some (PyInt hour) ∧ 0 ≤ hour ≤ 23) ∧
    (transaction !! "day_of_week" = Some (PyInt day_of_week) ∧
     0 ≤ day_of_week ≤ 6) ∧
    (transaction !! "day_of_month" = Some (PyInt day_of_month) ∧
     1 ≤ day_of_month ≤ 28) ∧
    (transaction !! "is_night" = Some (PyInt is_night) ∧ 0 ≤ is_night ≤ 1) ∧
    (transaction !! "is_weekend" = Some (PyInt is_weekend) ∧
     0 ≤ is_weekend ≤ 1) ∧
    (transaction !! "high_amount" = Some (PyInt high_amount) ∧
     0 ≤ high_amount ≤ 1) ∧
    (transaction !! "unusual_time" = Some (PyInt unusual_time) ∧
     0 ≤ unusual_time ≤ 1) ∧
    (transaction !! "high_risk_device" = Some (PyInt high_risk_device) ∧
     0 ≤ high_risk_device ≤ 1) ∧
    (transaction !! "high_risk_transaction" = Some (PyInt high_risk_transaction) ∧
     0 ≤ high_risk_transaction ≤ 1) ∧
    (transaction !! "total_risk_factors" = Some (PyInt total_risk_factors) ∧
     0 ≤ total_risk_factors ≤ 4).
Proof.
  eexists _, _, _, _, _, _, _, _, _, _, _, _, _, _.
  split; [reflexivity |].
  repeat (split; [split; [reflexivity |];
                  first [ apply randint_in_range; lia
                        | case_match; lia ] |]).
  split; [reflexivity |]. apply randint_in_range; lia.
Qed.

(** ** Decoder *)

(** X8: the decoder returns a score exactly when the body is an object
    whose "outputs" is a list starting with an object, and that object's
    "data" is a non-empty list (the score is its first element) or a
    non-empty string (the score is its first character). Further
    outputs, further data and any other key are ignored. *)
Theorem fraud_score_of_returns_iff (result v : pyval) :
  fraud_score_of result = Ok v ↔
  ∃ d output rest,
    result = PyDict d ∧
    d !! "outputs" = Some (PyList (PyDict output :: rest)) ∧
    ((∃ more, output !! "data" = Some (PyList (v :: more))) ∨
     (∃ c s, output !! "data" = Some (PyStr (String c s)) ∧
             v = PyStr (String c ""))).
Proof.
  unfold fraud_score_of. split.
  - destruct result as [| | | | | | d]; cbn; try discriminate.
    unfold dict_getitem at 1.
    destruct (d !! "outputs") as [outputs |] eqn:Ho; cbn; [| discriminate].
    destruct outputs as [| | | | s | l |]; cbn; try discriminate.
    + destruct s; cbn; discriminate.
    + destruct l as [| first rest]; cbn; [discriminate |].
      destruct first as [| | | | | | output]; cbn; try discriminate.
      unfold dict_getitem.
      destruct (output !! "data") as [data |] eqn:Hd; cbn; [| discriminate].
      destruct data as [| | | | s | l |]; cbn; try discriminate.
      * destruct s as [| c s]; [discriminate |]. intros [= <-].
        exists d, output, rest. split; [reflexivity | split; [exact Ho | right; eauto]].
      * destruct l as [| x more]; [discriminate |]. intros [= <-].
        exists d, output, rest. split; [reflexivity | split; [exact Ho | left; eauto]].
  - intros (d & output & rest & -> & Ho & Hdata). cbn.
    unfold dict_getitem at 1. rewrite Ho. cbn. unfold dict_getitem.
    destruct Hdata as [[more ->] | (c & s & -> & ->)]; reflexivity.
Qed.

(** X9: when the decoder fails it raises KeyError, IndexError or
    TypeError, and nothing else. *)
Theorem fraud_score_of_raises_only (result : pyval) (e : exn) :
  fraud_score_of result = Raise e →
  exn_cls e = KeyError ∨ exn_cls e = IndexError ∨ exn_cls e = TypeError.
Proof.
  assert (Hstr : ∀ v key e', getitem_str v key = Raise e' →
                 exn_cls e' = KeyError ∨ exn_cls e' = TypeError).
  { intros v key e'. destruct v; cbn; try (intros [= <-]; cbn; auto).
    unfold dict_getitem. case_match; [discriminate |]. intros [= <-]. auto. }
  assert (H0 : ∀ v e', getitem_0 v = Raise e' →
               exn_cls e' = KeyError ∨ exn_cls e' = IndexError
               ∨ exn_cls e' = TypeError).
  { intros v e'. destruct v as [| | | | s | l |]; cbn;
      try (intros [= <-]; cbn; auto).
    - destruct s; [intros [= <-]; cbn; auto | discriminate].
    - destruct l; [intros [= <-]; cbn; auto | discriminate]. }
  unfold fraud_score_of, pbind.
  destruct (getitem_str result "outputs") as [outputs |] eqn:H1.
  2: { intros [= <-]. destruct (Hstr _ _ _ H1); auto. }
  destruct (getitem_0 outputs) as [output |] eqn:H2.
  2: { intros [= <-]. apply (H0 _ _ H2). }
  destruct (getitem_str output "data") as [data |] eqn:H3.
  2: { intros [= <-]. destruct (Hstr _ _ _ H3); auto. }
  apply H0.
Qed.

Lemma fraud_score_of_raises_only_witness :
  exn_cls (Exn IndexError "list index out of range") = KeyError ∨
  exn_cls (Exn IndexError "list index out of range") = IndexError ∨
  exn_cls (Exn IndexError "list index out of range") = TypeError.
Proof.
  apply (fraud_score_of_raises_only (PyDict {[ "outputs" := PyList [] ]})).
  reflexivity.
Defined.

(** ** Request executor *)

Lemma nan_not_gt_half (score : float) :
  is_nan score = true → (0.5 <? score)%float = false.
Proof.
  unfold is_nan. rewrite FloatAxioms.eqb_spec, FloatAxioms.ltb_spec.
  unfold SFeqb, SFltb.
  change (Prim2SF 0.5) with (S754_finite false 4503599627370496 (-53)).
  destruct (Prim2SF score) as [s | s | | s m e]; cbv beta iota delta [SFcompare].
  - discriminate.
  - destruct s; discriminate.
  - reflexivity.
  - rewrite Z.compare_refl, Pos.compare_cont_refl. destruct s; discriminate.
Qed.

(** X10: a reply with an error status, 400 to 599, fails the request
    whatever its body holds: predict returns False with success = False
    after exactly one attempt and no wait, and the record's
    inference_time is 0 although a reply was received. *)
Theorem predict_on_error_status (transaction : gmap string pyval) (w : World)
    (payload : pyval) (resp : Response) :
  prepare_request_payload transaction = Ok payload →
  endpoint w (attempts_made w) payload = Replied resp →
  400 ≤ status_code resp < 600 →
  ∃ metrics w',
    predict transaction w = (Ok (false, metrics), w') ∧
    success metrics = false ∧
    inference_time metrics = 0%float ∧
    attempts_made w' = S (attempts_made w) ∧
    sleeps_taken w' = sleeps_taken w.
Proof.
  intros Hp He Hst.
  assert (Hraise : ∃ e, raise_for_status resp = Raise e).
  { unfold raise_for_status.
    destruct ((400 <=? status_code resp) && (status_code resp <? 500)) eqn:H4;
      [eauto |].
    destruct ((500 <=? status_code resp) && (status_code resp <? 600)) eqn:H5;
      [eauto |].
    apply andb_false_iff in H4, H5. lia. }
  destruct Hraise as [e Hraise].
  unfold predict, bind, try_except, time_time, predict_try, bind, lift, ret,
    time_time.
  rewrite Hp, (session_post_replied payload (tick (tick w)) resp He), Hraise.
  unfold predict_except, bind, ret, time_time, datetime_now_isoformat.
  eexists _, _. split; [reflexivity |]. cbn. repeat split; lia.
Qed.

Lemma predict_on_error_status_witness :
  ∃ metrics w',
    predict fixture_transaction (fixture_world (λ _, 0) bad_request_endpoint)
      = (Ok (false, metrics), w') ∧
    success metrics = false ∧
    inference_time metrics = 0%float ∧
    attempts_made w'
      = S (attempts_made (fixture_world (λ _, 0) bad_request_endpoint)) ∧
    sleeps_taken w'
      = sleeps_taken (fixture_world (λ _, 0) bad_request_endpoint).
Proof.
  eapply (predict_on_error_status fixture_transaction
            (fixture_world (λ _, 0) bad_request_endpoint));
    [reflexivity | reflexivity | cbn; lia].
Defined.

(** X11: a transaction the encoder rejects never reaches the network:
    predict returns the failed record carrying the encoder's message,
    and all it did to the world is read the clock three times. *)
Theorem predict_encoding_failure_sends_nothing
    (transaction : gmap string pyval) (w : World) (e : exn) :
  prepare_request_payload transaction = Raise e →
  ∃ metrics,
    predict transaction w = (Ok (false, metrics), tick (tick (tick w))) ∧
    success metrics = false ∧
    error_message metrics = Some (str e).
Proof.
  intros Hp.
  unfold predict, bind, try_except, time_time, predict_try, bind, lift.
  rewrite Hp.
  unfold predict_except, bind, ret, time_time, datetime_now_isoformat.
  eexists. repeat split.
Qed.

Lemma predict_encoding_failure_sends_nothing_witness :
  ∃ metrics,
    predict (delete "hour" fixture_transaction)
            (fixture_world (λ _, 0) (stub_endpoint 0.9))
      = (Ok (false, metrics),
         tick (tick (tick (fixture_world (λ _, 0) (stub_endpoint 0.9))))) ∧
    success metrics = false ∧
    error_message metrics = Some (str (Exn KeyError "'hour'")).
Proof.
  apply (predict_encoding_failure_sends_nothing (delete "hour" fixture_transaction)).
  reflexivity.
Defined.

(** What one request of the adapter costs at most. *)
Lemma send_bounded (r : Retry) (method : string) (budget : nat) :
  ∀ (failures : nat) (wire : nat → attempt),
  (attempts (send r method budget failures wire) ≤ S budget)%nat ∧
  (sleeps (send r method budget failures wire) ≤ budget)%nat.
Proof.
  induction budget as [| budget IH]; intros failures wire; cbn [send];
    destruct (wire 0%nat) as [reason | resp | how reason | status | why];
    try (pose proof (IH (S failures) (λ k, wire (S k))) as [Ha Hs]);
    repeat case_match; unfold failed, retried; cbn [attempts sleeps];
    repeat match goal with
           | |- context [if ?b then _ else _] => destruct b
           end; lia.
Qed.

Lemma attempted_attempted (a1 s1 a2 s2 : nat) (w : World) :
  attempted a2 s2 (attempted a1 s1 w) = attempted (a1 + a2) (s1 + s2) w.
Proof.
  unfold attempted. cbn. f_equal; lia.
Qed.

(** What following redirects does to the world: attempts and waits,
    at most a full budget for the request and for each redirect. *)
Lemma follow_effect (r : Retry) (hops : nat) :
  ∀ (method : string) (body : pyval) (w : World),
  ∃ a s,
    snd (follow r hops method body w) = attempted a s w ∧
    (a ≤ S hops * S (Z.to_nat (total r)))%nat ∧
    (s ≤ S hops * Z.to_nat (total r))%nat.
Proof.
  induction hops as [| hops IH]; intros method body w;
    rewrite follow_unfold; cbv zeta;
    pose proof (send_bounded r method (Z.to_nat (total r)) 0
                  (λ k, endpoint w (attempts_made w + k)%nat body)) as [Ha Hs];
    destruct (outcome (send _ _ _ _ _)) as [[resp | status] | e];
    cbn [snd]; try (eexists _, _; split; [reflexivity | lia]).
  destruct (IH (rebuild_method method status) (rebuild_body status body)
              (attempted
                 (attempts (send r method (Z.to_nat (total r)) 0
                              (λ k, endpoint w (attempts_made w + k)%nat body)))
                 (sleeps (send r method (Z.to_nat (total r)) 0
                            (λ k, endpoint w (attempts_made w + k)%nat body)))
                 w))
    as (a & s & -> & Ha' & Hs').
  rewrite attempted_attempted. eexists _, _. split; [reflexivity |].
  rewrite (Nat.mul_succ_l (S hops)), (Nat.mul_succ_l (S hops) (Z.to_nat (total r))).
  lia.
Qed.

(** What [session_post] does to the world: the request and at most 30
    redirects, each of at most four attempts and three waits. *)
Lemma session_post_effect (payload : pyval) (w : World) :
  ∃ a s, snd (session_post payload w) = attempted a s w ∧
         (a ≤ 124)%nat ∧ (s ≤ 93)%nat.
Proof.
  destruct (follow_effect retry_strategy 30 "POST" payload w)
    as (a & s & H & Ha & Hs).
  exists a, s. split; [exact H |]. split; [exact Ha | exact Hs].
Qed.

(** The same when no redirect is met: at most four attempts, and a
    wait after every refusal but the first. *)
Lemma session_post_direct (payload : pyval) (w : World) :
  no_redirect (λ k, endpoint w (attempts_made w + k)%nat payload) 4 →
  ∃ a s, snd (session_post payload w) = attempted a s w ∧
         (a ≤ 4)%nat ∧ (s ≤ 2)%nat.
Proof.
  intros Hno. rewrite session_post_unfold. cbv zeta.
  set (wire := λ k, endpoint w (attempts_made w + k)%nat payload) in *.
  destruct (first_unrefused wire 4)
    as [Hall | (k & Hk & Hpre & [[rep Ha] | Hg])].
  - destruct (send_post_all_refused 3 0 wire Hall) as (reason & _ & ->).
    cbn [outcome attempts sleeps snd].
    eexists _, _. split; [reflexivity |]. cbn. lia.
  - rewrite (send_post_after_refusals k 3 0 wire rep) by (lia || assumption).
    cbn [outcome attempts sleeps].
    destruct rep as [resp | status].
    + cbn [snd]. eexists _, _. split; [reflexivity |].
      unfold waits_after. cbn [Nat.eqb]. lia.
    + exfalso. destruct (wire k) eqn:Hw; cbn in Ha; try contradiction.
      subst. exact (Hno k status Hk Hw).
  - destruct (send_post_gives_up k 3 0 wire) as (e & Ho & Hat & Hsl);
      [lia | exact Hpre | exact Hg |].
    rewrite Ho. cbn [snd]. eexists _, _. split; [reflexivity |].
    rewrite Hsl. unfold waits_after. cbn [Nat.eqb]. lia.
Qed.

(** What the [try] block does to the world: the network part is that
    of [session_post], if the transaction encodes. *)
Lemma predict_try_effect (transaction : gmap string pyval)
    (request_start : float) (w : World) :
  let r := predict_try transaction request_start w in
  match prepare_request_payload transaction with
  | Ok payload =>
      attempts_made (snd r) = attempts_made (snd (session_post payload (tick w))) ∧
      sleeps_taken (snd r) = sleeps_taken (snd (session_post payload (tick w)))
  | Raise _ =>
      attempts_made (snd r) = attempts_made w ∧
      sleeps_taken (snd r) = sleeps_taken w
  end ∧
  (ticks w ≤ ticks (snd r) ≤ ticks w + 4)%nat ∧
  ((∃ result, fst r = Ok result) → ticks (snd r) = (ticks w + 4)%nat) ∧
  draws (snd r) = draws w ∧ np_draws (snd r) = np_draws w.
Proof.
  unfold predict_try, bind, lift, ret, time_time, datetime_now_isoformat.
  destruct (prepare_request_payload transaction) as [payload | e] eqn:Hp.
  2: { cbn. repeat split; try lia; try (intros [? [=]]; lia). }
  destruct (session_post_effect payload (tick w)) as (a & s & Hw & _).
  destruct (session_post payload (tick w)) as [[resp | e] w1] eqn:Hpost;
    cbn [snd] in Hw |- *; subst w1.
  2: { cbn. repeat split; try lia; try (intros [? [=]]; lia). }
  destruct (raise_for_status resp) as [[] | e];
    [| cbn; repeat split; try lia; try (intros [? [=]]; lia)].
  destruct (response_json resp) as [result | e];
    [| cbn; repeat split; try lia; try (intros [? [=]]; lia)].
  destruct (fraud_score_of result) as [score | e];
    [| cbn; repeat split; try lia; try (intros [? [=]]; lia)].
  destruct (gt_half score) as [positive | e]; cbn; repeat split; try lia;
    try (intros [? [=]]; lia).
Qed.

(** The network part of [predict] is that of its [try] block. *)
Lemma predict_network (transaction : gmap string pyval) (w : World) :
  attempts_made (snd (predict transaction w))
    = attempts_made (snd (predict_try transaction (time_at w (ticks w)) (tick w)))
  ∧ sleeps_taken (snd (predict transaction w))
    = sleeps_taken (snd (predict_try transaction (time_at w (ticks w)) (tick w))).
Proof.
  rewrite predict_unfold.
  destruct (predict_try transaction (time_at w (ticks w)) (tick w))
    as [[r | e] w1]; cbn [snd]; [split; reflexivity |].
  unfold predict_except, bind, ret, time_time, datetime_now_isoformat.
  cbn. split; reflexivity.
Qed.

(** X12: one call of predict ends after bounded work on the network: a
    transaction that does not encode costs no attempt; one that does
    costs at most four attempts and two waits while no redirect is met,
    and at most 124 attempts and 93 waits in all (the request and at
    most 30 redirects, four attempts and three waits each). It reads
    the clock (time.time and datetime.now) between three and seven
    times and never draws a random number. *)
Theorem predict_effect_bounded (transaction : gmap string pyval) (w : World) :
  let w' := snd (predict transaction w) in
  (attempts_made w ≤ attempts_made w' ≤ attempts_made w + 124)%nat ∧
  (sleeps_taken w ≤ sleeps_taken w' ≤ sleeps_taken w + 93)%nat ∧
  (∀ e, prepare_request_payload transaction = Raise e →
        attempts_made w' = attempts_made w ∧ sleeps_taken w' = sleeps_taken w) ∧
  (∀ payload,
     prepare_request_payload transaction = Ok payload →
     no_redirect (λ k, endpoint w (attempts_made w + k)%nat payload) 4 →
     (attempts_made w' ≤ attempts_made w + 4)%nat ∧
     (sleeps_taken w' ≤ sleeps_taken w + 2)%nat) ∧
  (ticks w + 3 ≤ ticks w' ≤ ticks w + 7)%nat ∧
  draws w' = draws w ∧ np_draws w' = np_draws w.
Proof.
  cbv zeta.
  destruct (predict_network transaction w) as [-> ->].
  pose proof (predict_try_effect transaction (time_at w (ticks w)) (tick w))
    as (Hnet & Ht & Hok & Hd & Hn). cbv zeta in Hnet.
  assert (Hrest : (ticks w + 3 ≤ ticks (snd (predict transaction w)) ≤ ticks w + 7)%nat
                  ∧ draws (snd (predict transaction w)) = draws w
                  ∧ np_draws (snd (predict transaction w)) = np_draws w).
  { rewrite predict_unfold.
    destruct (predict_try transaction (time_at w (ticks w)) (tick w))
      as [[r | e] w1]; cbn [fst snd] in *.
    - specialize (Hok ltac:(eauto)). cbn [ticks draws np_draws tick] in *.
      repeat split; lia.
    - unfold predict_except, bind, ret, time_time, datetime_now_isoformat.
      cbn [snd ticks draws np_draws tick] in *. repeat split; lia. }
  destruct (prepare_request_payload transaction) as [payload | e0] eqn:Hp.
  - destruct Hnet as [-> ->].
    destruct (session_post_effect payload (tick (tick w)))
      as (a & s & Hw & Ha & Hs).
    rewrite Hw. cbn [attempts_made sleeps_taken attempted tick].
    split; [lia |]. split; [lia |]. split; [intros e [=] |].
    split; [| exact Hrest].
    intros payload' [= <-] Hno.
    destruct (session_post_direct payload (tick (tick w)) Hno)
      as (a' & s' & Hw' & Ha' & Hs').
    rewrite Hw in Hw'. apply (f_equal (λ x, (attempts_made x, sleeps_taken x))) in Hw'.
    cbn in Hw'. injection Hw' as Hae Hse. lia.
  - destruct Hnet as [-> ->]. cbn [attempts_made sleeps_taken tick].
    split; [lia |]. split; [lia |]. split; [intros e _; split; reflexivity |].
    split; [intros payload [=] | exact Hrest].
Qed.

(** X13: a NaN score is not above 0.5: the request counts as successful
    and is classified negative. *)
Theorem predict_on_nan_score (transaction : gmap string pyval) (w : World)
    (payload : pyval) (resp : Response) (result : pyval) (score : float) :
  prepare_request_payload transaction = Ok payload →
  endpoint w (attempts_made w) payload = Replied resp →
  raise_for_status resp = Ok () →
  response_json resp = Ok result →
  fraud_score_of result = Ok (PyFloat score) →
  is_nan score = true →
  ∃ metrics w',
    predict transaction w = (Ok (false, metrics), w') ∧ success metrics = true.
Proof.
  intros Hp He Hr Hj Hf Hnan.
  destruct (predict_decoded transaction w payload resp result score Hp He Hr Hj Hf)
    as (metrics & w' & Hrun & Hs & _).
  rewrite (nan_not_gt_half score Hnan) in Hrun. eauto.
Qed.

Lemma predict_on_nan_score_witness :
  ∃ metrics w',
    predict fixture_transaction (fixture_world (λ _, 0) (stub_endpoint nan))
      = (Ok (false, metrics), w') ∧
    success metrics = true.
Proof.
  eapply (predict_on_nan_score fixture_transaction
            (fixture_world (λ _, 0) (stub_endpoint nan)) _ _ _ nan);
    reflexivity.
Defined.

(** X14: the client recovers from refused connections within its three
    retries: when the first k attempts, k at most 3, are refused and the
    next one is answered with a reply that passes the status check and
    decodes to a score, predict succeeds, classifies by that score, and
    has made k+1 attempts. It has waited after every refusal but the
    first, whose retry is immediate. *)
Theorem predict_recovers_from_refusals (transaction : gmap string pyval)
    (w : World) (payload : pyval) (resp : Response) (result : pyval)
    (score : float) (k : nat) :
  prepare_request_payload transaction = Ok payload →
  (k ≤ 3)%nat →
  (∀ j, (j < k)%nat →
        ∃ reason, endpoint w (attempts_made w + j)%nat payload = Refused reason) →
  endpoint w (attempts_made w + k)%nat payload = Replied resp →
  raise_for_status resp = Ok () →
  response_json resp = Ok result →
  fraud_score_of result = Ok (PyFloat score) →
  ∃ metrics w',
    predict transaction w = (Ok ((0.5 <? score)%float, metrics), w') ∧
    success metrics = true ∧
    attempts_made w' = (attempts_made w + S k)%nat ∧
    sleeps_taken w' = (sleeps_taken w + Nat.pred k)%nat.
Proof.
  intros Hp Hk Hpre He Hr Hj Hf.
  unfold predict, bind, try_except, time_time, predict_try, bind, lift, ret,
    time_time, datetime_now_isoformat.
  rewrite Hp.
  rewrite (session_post_after_refusals payload (tick (tick w)) resp k Hk Hpre He).
  rewrite Hr, Hj, Hf. cbn.
  eexists _, _. repeat split; reflexivity.
Qed.

(** A wire refused twice, then answered by the stub. *)
Lemma predict_recovers_from_refusals_witness :
  ∃ metrics w',
    predict fixture_transaction
      (fixture_world (λ _, 0)
         (λ j body, if (j <? 2)%nat then Refused "ConnectTimeoutError"
                    else stub_endpoint 0.9 j body))
      = (Ok ((0.5 <? 0.9)%float, metrics), w') ∧
    success metrics = true ∧
    attempts_made w' = (0 + 3)%nat ∧
    sleeps_taken w' = (0 + Nat.pred 2)%nat.
Proof.
  eapply (predict_recovers_from_refusals fixture_transaction
            (fixture_world (λ _, 0)
               (λ j body, if (j <? 2)%nat then Refused "ConnectTimeoutError"
                          else stub_endpoint 0.9 j body))
            _ _ _ 0.9%float 2);
    [reflexivity | lia | | reflexivity | reflexivity | reflexivity | reflexivity].
  intros j Hj. exists "ConnectTimeoutError".
  destruct j as [| [| j]]; [reflexivity | reflexivity | lia].
Defined.

(** X15: when the connection is refused on all four attempts, predict
    gives up: it returns False with success = False, having made four
    attempts and waited twice, after the second and after the third
    refusal. *)
Theorem predict_gives_up_after_four (transaction : gmap string pyval)
    (w : World) (payload : pyval) :
  prepare_request_payload transaction = Ok payload →
  (∀ j, (j ≤ 3)%nat →
        ∃ reason, endpoint w (attempts_made w + j)%nat payload = Refused reason) →
  ∃ metrics w',
    predict transaction w = (Ok (false, metrics), w') ∧
    success metrics = false ∧
    attempts_made w' = (attempts_made w + 4)%nat ∧
    sleeps_taken w' = (sleeps_taken w + 2)%nat.
Proof.
  intros Hp Hall.
  destruct (send_post_all_refused 3 0
              (λ j, endpoint w (attempts_made w + j)%nat payload))
    as (reason & _ & Hsend); [intros j Hj; apply Hall; lia |].
  unfold predict, bind, try_except, time_time, predict_try, bind, lift, ret,
    time_time.
  rewrite Hp, session_post_unfold. cbv zeta.
  change (attempts_made (tick (tick w))) with (attempts_made w).
  change (endpoint (tick (tick w))) with (endpoint w).
  rewrite Hsend. cbn [outcome attempts sleeps].
  unfold predict_except, bind, ret, time_time, datetime_now_isoformat.
  eexists _, _. repeat split; reflexivity.
Qed.

Lemma predict_gives_up_after_four_witness :
  ∃ metrics w',
    predict fixture_transaction (fixture_world (λ _, 0) dead_endpoint)
      = (Ok (false, metrics), w') ∧
    success metrics = false ∧
    attempts_made w' = (0 + 4)%nat ∧
    sleeps_taken w' = (0 + 2)%nat.
Proof.
  eapply (predict_gives_up_after_four fixture_transaction
            (fixture_world (λ _, 0) dead_endpoint));
    [reflexivity |].
  intros j Hj. eexists. reflexivity.
Defined.

(** ** Aggregator *)

Lemma success_partition (ml : list InferenceMetrics) :
  (length (filter (λ m, success m = true) ml)
   + length (filter (λ m, success m = false) ml) = length ml)%nat.
Proof.
  induction ml as [| m ml IH]; [reflexivity |].
  rewrite !filter_cons.
  destruct (decide (success m = true)) as [Ht | Ht];
    destruct (decide (success m = false)) as [Hf | Hf]; cbn [length].
  - congruence.
  - lia.
  - lia.
  - destruct (success m); congruence.
Qed.

Lemma run_latency_test_unfold (L : Numerics) (N : Z) (w : World) :
  ∃ ml w1,
    latency_loop L (length (range N)) [] (tick w) = (Ok ml, w1) ∧
    length ml = length (range N) ∧
    run_latency_test L N w = (latency_results L N ml, tick w1).
Proof.
  destruct (latency_loop_in_order L (length (range N)) 0 [] (tick w))
    as (ml & w1 & Hloop & Hlen & _).
  exists ml, w1. split; [exact Hloop | split; [exact Hlen |]].
  unfold run_latency_test, bind, time_time, lift. rewrite Hloop. reflexivity.
Qed.

(** X16: a latency run over no requests (a count of zero or less) sends
    nothing and raises ValueError in the statistics block; all it does to
    the world is read the clock twice. *)
Theorem latency_run_without_requests (L : Numerics) (N : Z) (w : World) :
  N ≤ 0 →
  run_latency_test L N w =
    (Raise (Exn ValueError
       "zero-size array to reduction operation minimum which has no identity"),
     tick (tick w)).
Proof.
  intros HN. unfold run_latency_test, range.
  replace (Z.to_nat N) with 0%nat by lia. reflexivity.
Qed.

Lemma latency_run_without_requests_witness :
  run_latency_test fixture_numerics 0 (fixture_world (λ _, 0) (stub_endpoint 0.9)) =
    (Raise (Exn ValueError
       "zero-size array to reduction operation minimum which has no identity"),
     tick (tick (fixture_world (λ _, 0) (stub_endpoint 0.9)))).
Proof. apply latency_run_without_requests. lia. Defined.

Lemma submitted_nothing_stays (L : Numerics) (W : Z) (w : World) (s : Pool) :
  steps L W (submitted 0 w) s → s = submitted 0 w.
Proof.
  intros H. apply rtc_inv in H as [H | (s1 & Hstep & _)]; [congruence |].
  exfalso. unfold submitted in Hstep. cbn in Hstep.
  inversion Hstep as [i q run dn ml ys w0 Hfree Hq
                     | i q run1 run2 dn ml ys w0 metrics w0' Hrun Hq
                     | i metrics q run dn1 dn2 ml ys w0 Hq].
  - destruct run1; discriminate.
  - destruct dn1; discriminate.
Qed.

(** X17: a throughput run over zero requests, with any positive number
    of workers, sends nothing and raises ZeroDivisionError when it
    computes the success rate. *)
Theorem throughput_run_of_zero_requests (L : Numerics) (W : Z) (w : World)
    (result : pyresult pyval) (w' : World) :
  0 < W →
  run_throughput_test L 0 W w result w' →
  result = Raise (Exn ZeroDivisionError "division by zero") ∧
  w' = tick (tick w).
Proof.
  intros HW. unfold run_throughput_test.
  destruct (decide (W ≤ 0)); [lia |].
  intros (s & Hrun & _ & -> & ->).
  apply submitted_nothing_stays in Hrun. subst s. split; reflexivity.
Qed.

Lemma throughput_run_of_zero_requests_witness :
  @Raise pyval (Exn ZeroDivisionError "division by zero")
    = Raise (Exn ZeroDivisionError "division by zero") ∧
  tick (tick (fixture_world (λ _, 0) dead_endpoint))
    = tick (tick (fixture_world (λ _, 0) dead_endpoint)).
Proof.
  apply (throughput_run_of_zero_requests fixture_numerics 5
           (fixture_world (λ _, 0) dead_endpoint)); [lia |].
  unfold run_throughput_test. destruct (decide (5 ≤ 0)) as [H | _]; [lia |].
  exists (submitted 0 (tick (fixture_world (λ _, 0) dead_endpoint))).
  split; [apply rtc_refl |]. repeat split.
Defined.

(** X18: in every throughput report the successful and the failed
    requests add up to the number of records aggregated: each record is
    counted once, as a success or as a failure. *)
Theorem throughput_counts_add_up (L : Numerics)
    (num_requests concurrent_clients : Z) (ml : list InferenceMetrics)
    (start_time end_time : float) :
  let results := throughput_results L num_requests concurrent_clients ml
                   start_time end_time in
  (∃ report, results = Ok report) →
  ∃ successes failures,
    report_entry results "successful_requests" = Ok (PyInt successes) ∧
    report_entry results "failed_requests" = Ok (PyInt failures) ∧
    0 ≤ successes ∧ 0 ≤ failures ∧
    successes + failures = len ml.
Proof.
  cbv zeta. unfold throughput_results.
  destruct (int_truediv _ _) as [ratio | e]; [| intros [? [=]]].
  destruct (int_float_truediv _ _) as [rps | e]; [| intros [? [=]]].
  destruct (latency_block L _) as [latency_entry | e]; [| intros [? [=]]].
  destruct (inference_latency_block L _) as [inference_entry | e];
    [| intros [? [=]]].
  cbn [pbind]. intros _.
  eexists _, _. split; [reflexivity |]. split; [reflexivity |].
  pose proof (success_partition ml). unfold len. lia.
Qed.

Lemma throughput_counts_add_up_witness :
  ∃ successes failures,
    report_entry
      (throughput_results fixture_numerics 2 10
         [fixture_success; fixture_failure] 0 1)
      "successful_requests" = Ok (PyInt successes) ∧
    report_entry
      (throughput_results fixture_numerics 2 10
         [fixture_success; fixture_failure] 0 1)
      "failed_requests" = Ok (PyInt failures) ∧
    0 ≤ successes ∧ 0 ≤ failures ∧
    successes + failures = len [fixture_success; fixture_failure].
Proof.
  apply (throughput_counts_add_up fixture_numerics 2 10
           [fixture_success; fixture_failure] 0%float 1%float).
  eexists. reflexivity.
Defined.

(** X19: failed records enter the reports through their number only: two
    record lists of equal length with the same successful records give
    the same throughput report, and the latency report needs the
    successful records alone. The timings of failed requests never reach
    a latency statistic. *)
Theorem reports_ignore_failed_timings (L : Numerics)
    (num_requests concurrent_clients : Z) (ml1 ml2 : list InferenceMetrics)
    (start_time end_time : float) :
  filter (λ m, success m = true) ml1 = filter (λ m, success m = true) ml2 →
  length ml1 = length ml2 →
  throughput_results L num_requests concurrent_clients ml1 start_time end_time
    = throughput_results L num_requests concurrent_clients ml2 start_time end_time
  ∧ latency_results L num_requests ml1 = latency_results L num_requests ml2.
Proof.
  intros Hs Hlen.
  assert (Hf : length (filter (λ m, success m = false) ml1)
               = length (filter (λ m, success m = false) ml2)).
  { pose proof (success_partition ml1). pose proof (success_partition ml2).
    rewrite Hs in *. lia. }
  unfold throughput_results, latency_results, len. rewrite Hs, Hf. split; reflexivity.
Qed.

Lemma reports_ignore_failed_timings_witness :
  throughput_results fixture_numerics 2 10 [fixture_success; fixture_failure] 0 1
    = throughput_results fixture_numerics 2 10
        [ {| request_time := 0; inference_time := 0; total_time := 30000000;
             success := false; error_message := Some "Read timed out.";
             timestamp := None |};
          fixture_success ] 0 1
  ∧ latency_results fixture_numerics 2 [fixture_success; fixture_failure]
    = latency_results fixture_numerics 2
        [ {| request_time := 0; inference_time := 0; total_time := 30000000;
             success := false; error_message := Some "Read timed out.";
             timestamp := None |};
          fixture_success ].
Proof.
  apply reports_ignore_failed_timings; reflexivity.
Defined.

(** X20: a latency run returns a report only when at least one request
    succeeded; the report then counts the records of the run: its
    successful and its failed requests are the numbers of successful and
    of failed records, and they add up to the request count. *)
Theorem latency_report_counts (L : Numerics) (N : Z) (w : World) :
  (∃ report, fst (run_latency_test L N w) = Ok report) →
  ∃ ml w1,
    latency_loop L (length (range N)) [] (tick w) = (Ok ml, w1) ∧
    report_entry (fst (run_latency_test L N w)) "successful_requests"
      = Ok (PyInt (len (filter (λ m, success m = true) ml))) ∧
    report_entry (fst (run_latency_test L N w)) "failed_requests"
      = Ok (PyInt (len (filter (λ m, success m = false) ml))) ∧
    1 ≤ len (filter (λ m, success m = true) ml) ∧
    len (filter (λ m, success m = true) ml)
      + len (filter (λ m, success m = false) ml) = N.
Proof.
  destruct (run_latency_test_unfold L N w) as (ml & w1 & Hloop & Hlen & Hrun).
  rewrite Hrun. cbn [fst]. intros [report Hrep].
  exists ml, w1. split; [exact Hloop |].
  unfold latency_results in *.
  pose proof (success_partition ml) as Hpart.
  destruct (filter (λ m, success m = true) ml) as [| m0 successful] eqn:Hsucc;
    [discriminate |].
  assert (HN : 0 ≤ N).
  { destruct (Z.le_gt_cases 0 N) as [H | H]; [exact H |].
    unfold range in Hlen. replace (Z.to_nat N) with 0%nat in Hlen by lia.
    cbn in Hlen. destruct ml; [discriminate Hsucc | discriminate Hlen]. }
  assert (HlenN : len ml = N).
  { unfold len. rewrite Hlen. apply (range_length N HN). }
  set (stats := np_min _) in *.
  destruct stats as [t_min | e]; [| discriminate].
  cbn [pbind] in *.
  destruct (percentile L _ 50) as [t_p50 | e]; [| discriminate].
  destruct (percentile L _ 95) as [t_p95 | e]; [| discriminate].
  destruct (percentile L _ 99) as [t_p99 | e]; [| discriminate].
  cbn [pbind] in *.
  destruct (np_max _) as [t_max | e]; [| discriminate].
  destruct (mean L _) as [t_mean | e]; [| discriminate].
  destruct (std L _) as [t_std | e]; [| discriminate].
  cbn [pbind] in *.
  unfold len in *. cbn [length] in *.
  split; [reflexivity |]. split.
  - unfold report_entry. cbn [pbind getitem_str].
    replace (Z.of_nat (length (filter (λ m, success m = false) ml)))
      with (N - Z.of_nat (S (length successful))) by lia.
    reflexivity.
  - lia.
Qed.

Lemma latency_report_counts_witness :
  ∃ ml w1,
    latency_loop fixture_numerics (length (range 1)) []
      (tick (fixture_world (λ _, 0) (stub_endpoint 0.9))) = (Ok ml, w1) ∧
    report_entry
      (fst (run_latency_test fixture_numerics 1
              (fixture_world (λ _, 0) (stub_endpoint 0.9))))
      "successful_requests"
      = Ok (PyInt (len (filter (λ m, success m = true) ml))) ∧
    report_entry
      (fst (run_latency_test fixture_numerics 1
              (fixture_world (λ _, 0) (stub_endpoint 0.9))))
      "failed_requests"
      = Ok (PyInt (len (filter (λ m, success m = false) ml))) ∧
    1 ≤ len (filter (λ m, success m = true) ml) ∧
    len (filter (λ m, success m = true) ml)
      + len (filter (λ m, success m = false) ml) = 1.
Proof.
  apply (latency_report_counts fixture_numerics 1
           (fixture_world (λ _, 0) (stub_endpoint 0.9))).
  eexists. vm_compute. reflexivity.
Defined.

(** ** Scheduler *)

Lemma sample_effect (L : Numerics) (w : World) :
  ∃ transaction w1 payload,
    generate_sample_transaction L w = (Ok transaction, w1) ∧
    prepare_request_payload transaction = Ok payload ∧
    draws w1 = (draws w + 11)%nat ∧ np_draws w1 = (np_draws w + 4)%nat ∧
    attempts_made w1 = attempts_made w ∧ sleeps_taken w1 = sleeps_taken w ∧
    ticks w1 = ticks w.
Proof.
  eexists _, _, _. split; [reflexivity |]. split; [reflexivity |].
  cbn. repeat split; lia.
Qed.

Lemma predict_counts (transaction : gmap string pyval) (w : World) (payload : pyval) :
  prepare_request_payload transaction = Ok payload →
  ∃ r w',
    predict transaction w = (Ok r, w') ∧
    (attempts_made w ≤ attempts_made w' ≤ attempts_made w + 124)%nat ∧
    (sleeps_taken w ≤ sleeps_taken w' ≤ sleeps_taken w + 93)%nat ∧
    draws w' = draws w ∧ np_draws w' = np_draws w.
Proof.
  intros Hp.
  destruct (predict_network transaction w) as [Hna Hns].
  pose proof (predict_try_effect transaction (time_at w (ticks w)) (tick w))
    as (Hnet & _ & _ & Hd & Hn).
  cbv zeta in Hnet. rewrite Hp in Hnet. destruct Hnet as [Hta Hts].
  destruct (session_post_effect payload (tick (tick w))) as (a & s & Hw & Ha & Hs).
  rewrite Hw in Hta, Hts. cbn [attempts_made sleeps_taken attempted tick] in Hta, Hts.
  assert (Hdn : draws (snd (predict transaction w)) = draws w
                ∧ np_draws (snd (predict transaction w)) = np_draws w).
  { rewrite predict_unfold.
    destruct (predict_try transaction (time_at w (ticks w)) (tick w))
      as [[r | e] w1]; cbn [snd draws np_draws tick] in *; [split; assumption |].
    unfold predict_except, bind, ret, time_time, datetime_now_isoformat.
    cbn [snd draws np_draws tick]. split; assumption. }
  destruct (predict_returns transaction w) as (r & w' & Hrun).
  rewrite Hrun in Hna, Hns, Hdn. cbn [snd] in Hna, Hns, Hdn.
  exists r, w'. split; [exact Hrun |]. destruct Hdn. repeat split; try lia; assumption.
Qed.

(** X21: a sequential run of n requests always ends with n records. It
    draws exactly 11 n numbers from [random] and 4 n from [np.random]:
    a transaction is sampled for every request and no draw is made
    elsewhere. Its work on the network is bounded: at most 124 n
    attempts and 93 n waits. *)
Theorem latency_loop_accounting (L : Numerics) (n : nat) :
  ∀ (acc : list InferenceMetrics) (w : World),
  ∃ ml w',
    latency_loop L n acc w = (Ok (acc ++ ml), w') ∧
    length ml = n ∧
    draws w' = (draws w + 11 * n)%nat ∧
    np_draws w' = (np_draws w + 4 * n)%nat ∧
    (attempts_made w ≤ attempts_made w' ≤ attempts_made w + 124 * n)%nat ∧
    (sleeps_taken w ≤ sleeps_taken w' ≤ sleeps_taken w + 93 * n)%nat.
Proof.
  induction n as [| n IH]; intros acc w.
  - exists [], w. rewrite app_nil_r. cbn. repeat split; lia.
  - rewrite latency_loop_unfold.
    destruct (sample_effect L w)
      as (tx & w1 & payload & -> & Hp & Hd1 & Hn1 & Ha1 & Hs1 & _).
    destruct (predict_counts tx w1 payload Hp)
      as (r & w2 & -> & Ha2 & Hs2 & Hd2 & Hn2).
    destruct (IH (acc ++ [snd r]) w2)
      as (ml & w' & Hloop & Hlen & Hd & Hn & Ha & Hs).
    exists (snd r :: ml), w'. rewrite Hloop, <- app_assoc. cbn [app length].
    repeat split; lia.
Qed.

(** X22: the pool never works on more requests than it has workers. *)
Theorem pool_never_exceeds_workers (L : Numerics) (N W : Z) (w : World)
    (s : Pool) :
  0 ≤ W →
  steps L W (submitted N w) s →
  len (running s) ≤ W.
Proof.
  intros HW Hrun.
  assert (Hinv : ∀ s1 s2, steps L W s1 s2 →
                 len (running s1) ≤ W → len (running s2) ≤ W).
  { clear. induction 1 as [s | s1 s2 s3 Hstep _ IH]; [auto |].
    intros H. apply IH. clear IH.
    destruct Hstep; cbn [running] in *; unfold len in *;
      rewrite ?length_app in *; cbn [length] in *; lia. }
  apply (Hinv _ _ Hrun). cbn. exact HW.
Qed.

(** Three requests, two workers: the first request has been taken. *)
Lemma pool_never_exceeds_workers_witness :
  len (running {| queue := [1; 2]; running := [0]; done := [];
                  metrics_list := []; yielded := [];
                  world := fixture_world (λ _, 0) dead_endpoint |}) ≤ 2.
Proof.
  apply (pool_never_exceeds_workers fixture_numerics 3 2
           (fixture_world (λ _, 0) dead_endpoint)); [lia |].
  apply rtc_once.
  exact (step_start fixture_numerics 2 0 [1; 2] [] [] [] []
           (fixture_world (λ _, 0) dead_endpoint) ltac:(reflexivity)).
Defined.

(** X23: a run of the pool over N requests takes at most 3 N steps, one
    start, one finish and one collection for each request, and it is
    drained exactly when it has taken all of them: the pool cannot run
    forever. *)
Theorem pool_run_is_bounded (L : Numerics) (N W : Z) (w : World)
    (n : nat) (s : Pool) :
  nsteps (step L W) n (submitted N w) s →
  (n ≤ 3 * length (range N))%nat ∧
  (drained s ↔ n = (3 * length (range N))%nat).
Proof.
  intros Hrun.
  assert (Hm : ∀ s1 s2 k, nsteps (step L W) k s1 s2 →
               (k + pool_measure s2 = pool_measure s1)%nat).
  { clear. induction 1 as [s | k s1 s2 s3 Hstep _ IH]; [reflexivity |].
    pose proof (step_measure L W s1 s2 Hstep). lia. }
  specialize (Hm _ _ _ Hrun).
  assert (H0 : pool_measure (submitted N w) = (3 * length (range N))%nat)
    by (unfold pool_measure; cbn; lia).
  rewrite H0 in Hm. split; [lia |].
  assert (Hdr : drained s ↔ pool_measure s = 0%nat).
  { unfold drained, pool_measure. destruct s as [q run dn ml ys w0]. cbn.
    split.
    - intros (-> & -> & ->). reflexivity.
    - intros H. destruct q, run, dn; cbn in H; try lia. repeat split. }
  rewrite Hdr. lia.
Qed.

(** Three requests, two workers, after one step. *)
Lemma pool_run_is_bounded_witness :
  (1 ≤ 3 * length (range 3))%nat ∧
  (drained {| queue := [1; 2]; running := [0]; done := [];
              metrics_list := []; yielded := [];
              world := fixture_world (λ _, 0) dead_endpoint |} ↔
   1%nat = (3 * length (range 3))%nat).
Proof.
  apply (pool_run_is_bounded fixture_numerics 3 2
           (fixture_world (λ _, 0) dead_endpoint)).
  apply nsteps_once.
  exact (step_start fixture_numerics 2 0 [1; 2] [] [] [] []
           (fixture_world (λ _, 0) dead_endpoint) ltac:(reflexivity)).
Defined.

(** ** Sequential run against an endpoint that refuses every connection *)

Lemma sample_keeps_endpoint (L : Numerics) (w : World) :
  ∃ transaction w1 payload,
    generate_sample_transaction L w = (Ok transaction, w1) ∧
    prepare_request_payload transaction = Ok payload ∧
    endpoint w1 = endpoint w ∧ attempts_made w1 = attempts_made w.
Proof.
  eexists _, _, _. split; [reflexivity |]. split; [reflexivity |].
  split; reflexivity.
Qed.

Lemma predict_all_refused (transaction : gmap string pyval) (w : World)
    (payload : pyval) :
  prepare_request_payload transaction = Ok payload →
  refuses_all w →
  ∃ metrics w',
    predict transaction w = (Ok (false, metrics), w') ∧
    success metrics = false ∧
    attempts_made w' = (attempts_made w + 4)%nat ∧
    endpoint w' = endpoint w.
Proof.
  intros Hp Hall.
  destruct (send_post_all_refused 3 0
              (λ j, endpoint w (attempts_made w + j)%nat payload))
    as (reason & _ & Hsend); [intros j _; apply Hall |].
  unfold predict, bind, try_except, time_time, predict_try, bind, lift, ret,
    time_time.
  rewrite Hp, session_post_unfold. cbv zeta.
  change (attempts_made (tick (tick w))) with (attempts_made w).
  change (endpoint (tick (tick w))) with (endpoint w).
  rewrite Hsend. cbn [outcome attempts sleeps].
  unfold predict_except, bind, ret, time_time, datetime_now_isoformat.
  eexists _, _. repeat split; reflexivity.
Qed.

Lemma latency_loop_all_refused (L : Numerics) (n : nat) :
  ∀ (acc : list InferenceMetrics) (w : World),
  refuses_all w →
  ∃ ml w',
    latency_loop L n acc w = (Ok (acc ++ ml), w') ∧
    Forall (λ m, success m = false) ml ∧
    attempts_made w' = (attempts_made w + 4 * n)%nat.
Proof.
  induction n as [| n IH]; intros acc w Hall.
  - exists [], w. rewrite app_nil_r. cbn. repeat split; [constructor | lia].
  - rewrite latency_loop_unfold.
    destruct (sample_keeps_endpoint L w) as (tx & w1 & payload & -> & Hp & He1 & Ha1).
    destruct (predict_all_refused tx w1 payload Hp) as (m & w2 & -> & Hm & Ha2 & He2).
    { unfold refuses_all. rewrite He1. exact Hall. }
    destruct (IH (acc ++ [m]) w2) as (ml & w' & Hloop & Hf & Ha).
    { unfold refuses_all. rewrite He2, He1. exact Hall. }
    exists (m :: ml), w'. cbn [snd]. rewrite Hloop, <- app_assoc.
    split; [reflexivity |]. split; [constructor; assumption | lia].
Qed.

(** X24: against an endpoint that refuses every connection a latency
    run of any size ends in ValueError, raised by np.min over no
    successful record, after four connection attempts for each
    request. *)
Theorem latency_run_on_dead_endpoint (L : Numerics) (N : Z) (w : World) :
  refuses_all w →
  ∃ w',
    run_latency_test L N w =
      (Raise (Exn ValueError
         "zero-size array to reduction operation minimum which has no identity"),
       w') ∧
    attempts_made w' = (attempts_made w + 4 * length (range N))%nat.
Proof.
  intros Hall.
  destruct (latency_loop_all_refused L (length (range N)) [] (tick w) Hall)
    as (ml & w1 & Hloop & Hfail & Ha).
  exists (tick w1). split; [| exact Ha].
  unfold run_latency_test, bind, time_time, lift. rewrite Hloop. cbn [app].
  unfold latency_results. rewrite (no_success_filter _ Hfail). reflexivity.
Qed.

Lemma latency_run_on_dead_endpoint_witness :
  ∃ w',
    run_latency_test fixture_numerics 100 (fixture_world (λ _, 0) dead_endpoint) =
      (Raise (Exn ValueError
         "zero-size array to reduction operation minimum which has no identity"),
       w') ∧
    attempts_made w' = (0 + 4 * length (range 100))%nat.
Proof.
  apply (latency_run_on_dead_endpoint fixture_numerics 100
           (fixture_world (λ _, 0) dead_endpoint)).
  intros j payload. eexists. reflexivity.
Defined.

(** ** Report printer *)

Ltac unbind :=
  repeat match goal with
         | |- pbind ?r _ = Ok _ → _ =>
             destruct r as [? | ?]; cbn [pbind]; [| discriminate]
         end.

Lemma latency_block_shape (L : Numerics) (ts : list float) (v : pyval) :
  latency_block L ts = Ok v →
  ∃ a b c d e f g : float,
    v = PyDict (list_to_map
          [ ("min_ms", ms a); ("p50_ms", ms b); ("p95_ms", ms c);
            ("p99_ms", ms d); ("max_ms", ms e); ("mean_ms", ms f);
            ("stdev_ms", ms g) ]).
Proof.
  unfold latency_block. unbind. intros [= <-]. eauto 10.
Qed.

Lemma inference_latency_block_shape (L : Numerics) (ts : list float) (v : pyval) :
  inference_latency_block L ts = Ok v →
  ∃ a b c d e f : float,
    v = PyDict (list_to_map
          [ ("min_ms", ms a); ("p50_ms", ms b); ("p95_ms", ms c);
            ("p99_ms", ms d); ("max_ms", ms e); ("mean_ms", ms f) ]).
Proof.
  unfold inference_latency_block. unbind. intros [= <-]. eauto 10.
Qed.

Lemma print_results_on_throughput_report (L : Numerics) (F : Formatter)
    (N C : Z) (ml : list InferenceMetrics) (t0 t1 : float) (report : pyval) :
  throughput_results L N C ml t0 t1 = Ok report →
  getitem_str report "test_type" = Ok (PyStr "throughput") ∧
  ∃ lines, print_results F report = Returned lines ∧ length lines = 26%nat ∧
           lines !! 1%nat = Some ("TEST RESULTS: " +:+ upper F "throughput") ∧
           last lines = Some (string_times "=" 60).
Proof.
  unfold throughput_results. cbv zeta.
  destruct (int_truediv _ _) as [ratio | ?]; cbn [pbind]; [| discriminate].
  destruct (int_float_truediv _ _) as [rps | ?]; cbn [pbind]; [| discriminate].
  destruct (latency_block L _) as [lat | ?] eqn:Hlat; cbn [pbind]; [| discriminate].
  destruct (inference_latency_block L _) as [inf | ?] eqn:Hinf; cbn [pbind];
    [| discriminate].
  apply latency_block_shape in Hlat as (a & b & c & d & e & f & g & ->).
  apply inference_latency_block_shape in Hinf as (a' & b' & c' & d' & e' & f' & ->).
  intros [= <-]. split; [reflexivity |].
  eexists. repeat split; reflexivity.
Qed.

Lemma print_results_on_latency_report (L : Numerics) (F : Formatter)
    (N : Z) (ml : list InferenceMetrics) (report : pyval) :
  latency_results L N ml = Ok report →
  getitem_str report "test_type" = Ok (PyStr "latency") ∧
  ∃ lines, print_results F report = Returned lines ∧ length lines = 15%nat ∧
           lines !! 1%nat = Some ("TEST RESULTS: " +:+ upper F "latency") ∧
           last lines = Some (string_times "=" 60).
Proof.
  unfold latency_results. cbv zeta. unbind. intros [= <-].
  split; [reflexivity |].
  eexists. repeat split; reflexivity.
Qed.

(** X25: [print_results] prints every report the two test functions
    return: each key it reads is there and each value it formats is a
    number, so it runs to its closing rule. The title line carries the
    report's own test type. *)
Theorem print_results_accepts_reports (L : Numerics) (F : Formatter)
    (N C : Z) (ml : list InferenceMetrics) (t0 t1 : float) (report : pyval) :
  throughput_results L N C ml t0 t1 = Ok report
  ∨ latency_results L N ml = Ok report →
  ∃ kind lines,
    getitem_str report "test_type" = Ok (PyStr kind) ∧
    print_results F report = Returned lines ∧
    lines !! 1%nat = Some ("TEST RESULTS: " +:+ upper F kind) ∧
    last lines = Some (string_times "=" 60).
Proof.
  intros [H | H].
  - destruct (print_results_on_throughput_report L F _ _ _ _ _ _ H)
      as (Hk & lines & Hp & _ & H1 & Hlast).
    exists "throughput", lines. auto.
  - destruct (print_results_on_latency_report L F _ _ _ H)
      as (Hk & lines & Hp & _ & H1 & Hlast).
    exists "latency", lines. auto.
Qed.

Lemma print_results_accepts_reports_witness :
  ∃ kind lines,
    report_entry
      (throughput_results fixture_numerics 2 10
         [fixture_success; fixture_failure] 0 1) "test_type" = Ok (PyStr kind) ∧
    cbind (of_pyresult
             (throughput_results fixture_numerics 2 10
                [fixture_success; fixture_failure] 0 1))
          (print_results fixture_formatter) = Returned lines ∧
    lines !! 1%nat = Some ("TEST RESULTS: " +:+ upper fixture_formatter kind) ∧
    last lines = Some (string_times "=" 60).
Proof.
  assert (H : ∃ report,
            throughput_results fixture_numerics 2 10
              [fixture_success; fixture_failure] 0 1 = Ok report)
    by (eexists; reflexivity).
  destruct H as [report H]. rewrite H.
  apply (print_results_accepts_reports fixture_numerics fixture_formatter
           2 10 [fixture_success; fixture_failure] 0%float 1%float report).
  left. exact H.
Defined.

(** ** Command line *)

Lemma run_latency_test_report (L : Numerics) (N : Z) (w w1 : World)
    (report : pyval) :
  run_latency_test L N w = (Ok report, w1) →
  ∃ ml, latency_results L N ml = Ok report.
Proof.
  destruct (run_latency_test_unfold L N w) as (ml & w0 & _ & _ & ->).
  intros [= H _]. eauto.
Qed.

Lemma run_throughput_test_report (L : Numerics) (N C : Z) (w w' : World)
    (report : pyval) :
  run_throughput_test L N C w (Ok report) w' →
  ∃ ml t0 t1, throughput_results L N C ml t0 t1 = Ok report.
Proof.
  unfold run_throughput_test.
  destruct (decide (C ≤ 0)); [intros [[=] _] |].
  intros (s & _ & _ & H & _). eauto.
Qed.

(** What the first stage of [main] can leave. *)
Lemma latency_stage_cases (L : Numerics) (F : Formatter) (args : Args)
    (w : World) :
  match latency_stage L F args w with
  | (Returned (lines, results), w1) =>
      if test_type_in (test_type args) [latency; both] then
        ∃ report, run_latency_test L 100 w = (Ok report, w1) ∧
                  results = [report] ∧
                  getitem_str report "test_type" = Ok (PyStr "latency") ∧
                  print_results F report = Returned lines
      else lines = [] ∧ results = [] ∧ w1 = w
  | (Raised e, w1) =>
      test_type_in (test_type args) [latency; both] = true ∧
      run_latency_test L 100 w = (Raise e, w1)
  | (RaisedAttributeError _, _) => False
  end.
Proof.
  unfold latency_stage.
  destruct (test_type_in (test_type args) [latency; both]); [| auto].
  destruct (run_latency_test L 100 w) as [[report | e] w1] eqn:Hrun; [| auto].
  destruct (run_latency_test_report L _ _ _ _ Hrun) as [ml Hrep].
  destruct (print_results_on_latency_report L F _ _ _ Hrep)
    as (Hk & lines & Hp & _).
  rewrite Hp. cbn [cbind]. eauto.
Qed.

Lemma save_results_returned (args : Args) (lines : list string)
    (results : list pyval) (w : World) (o : MainOutcome) :
  save_results args lines results w = Returned o →
  o = finish_main args lines results.
Proof.
  unfold save_results. destruct (output_path args) as [path |].
  - destruct (write_error w path); [discriminate | congruence].
  - congruence.
Qed.




(** X26: when [main] returns, its result list holds one report for each
    test it was asked to run, the latency report first, each carrying
    the test type of its run; and the file written, if a path was
    given, holds exactly that list. *)
Theorem main_reports_in_order (L : Numerics) (F : Formatter) (args : Args)
    (w w' : World) (o : MainOutcome) :
  main L F args w (Returned o) w' →
  Forall2 (λ report call,
             getitem_str report "test_type" = Ok (PyStr (call_name call)))
          (main_results o) (main_calls args)
  ∧ saved o = (path ← output_path args; Some (path, main_results o)).
Proof.
  unfold main, main_calls.
  pose proof (latency_stage_cases L F args w) as Hstage.
  destruct (latency_stage L F args w) as [[[lines1 results1] | e | msg] w1];
    [| intros [[=] _] | destruct Hstage].
  assert (H1 : Forall2 (λ report call,
                 getitem_str report "test_type" = Ok (PyStr (call_name call)))
               results1
               (if test_type_in (test_type args) [latency; both]
                then [RunLatencyTest 100] else [])).
  { destruct (test_type_in (test_type args) [latency; both]).
    - destruct Hstage as (report & _ & -> & Hk & _).
      constructor; [exact Hk | constructor].
    - destruct Hstage as (_ & -> & _). constructor. }
  destruct (test_type_in (test_type args) [throughput; both]).
  - intros ([report | e] & Hrun & Hout); [| discriminate Hout].
    cbn [of_pyresult cbind] in Hout.
    destruct (run_throughput_test_report L _ _ _ _ _ Hrun) as (ml & t0 & t1 & Hrep).
    destruct (print_results_on_throughput_report L F _ _ _ _ _ _ Hrep)
      as (Hk & lines2 & Hp & _).
    rewrite Hp in Hout. cbn [cbind] in Hout. symmetry in Hout.
    apply save_results_returned in Hout as ->.
    unfold finish_main. cbn [main_results saved]. split.
    + apply Forall2_app; [exact H1 |]. constructor; [exact Hk | constructor].
    + destruct (output_path args); reflexivity.
  - intros [Hout _]. symmetry in Hout.
    apply save_results_returned in Hout as ->.
    unfold finish_main. cbn [main_results saved]. split.
    + rewrite app_nil_r. exact H1.
    + destruct (output_path args); reflexivity.
Qed.

Lemma main_reports_in_order_witness :
  ∃ o w',
    main fixture_numerics fixture_formatter fixture_latency_args
      (fixture_world (λ _, 0) (stub_endpoint 0.9)) (Returned o) w' ∧
    Forall2 (λ report call,
               getitem_str report "test_type" = Ok (PyStr (call_name call)))
            (main_results o) (main_calls fixture_latency_args)
    ∧ saved o = (path ← output_path fixture_latency_args;
                 Some (path, main_results o)).
Proof.
  eexists _, _.
  match goal with |- ?A ∧ _ => assert (H : A) end.
  { unfold main, latency_stage. vm_compute. split; reflexivity. }
  split; [exact H |].
  apply (main_reports_in_order _ _ _ _ _ _ H).
Defined.

Lemma run_latency_test_all_refused (L : Numerics) (N : Z) (w : World) :
  refuses_all w →
  fst (run_latency_test L N w) =
    Raise (Exn ValueError
      "zero-size array to reduction operation minimum which has no identity").
Proof.
  intros Hall.
  destruct (latency_loop_all_refused L (length (range N)) [] (tick w) Hall)
    as (ml & w1 & Hloop & Hfail & _).
  unfold run_latency_test, bind, time_time, lift. rewrite Hloop. cbn [app fst].
  unfold latency_results. rewrite (no_success_filter _ Hfail). reflexivity.
Qed.

Lemma dead_endpoint_refuses_all (raw : nat → Z) :
  refuses_all (fixture_world raw dead_endpoint).
Proof. intros j payload. eexists. reflexivity. Qed.

(** A failed latency test is a run of [main]. *)
Lemma main_after_failed_latency_test (L : Numerics) (F : Formatter)
    (args : Args) (w : World) (e : exn) :
  test_type args ≠ throughput →
  fst (run_latency_test L 100 w) = Raise e →
  main L F args w (Raised e) (snd (run_latency_test L 100 w)).
Proof.
  intros Ht He. unfold main, latency_stage.
  assert (Hsel : test_type_in (test_type args) [latency; both] = true)
    by (destruct (test_type args); [reflexivity | congruence | reflexivity]).
  rewrite Hsel.
  destruct (run_latency_test L 100 w) as [r w1]. cbn [fst snd] in *. subst r.
  split; reflexivity.
Qed.

(** X27: when the latency test raises, [main] raises the same exception
    and stops there: the world is left as the latency run left it, so
    the throughput test, though selected, is never started, and nothing
    is printed or saved. *)
Theorem main_stops_at_failed_latency_test (L : Numerics) (F : Formatter)
    (args : Args) (w w' : World) (e : exn) (out : cli_result MainOutcome) :
  test_type args ≠ throughput →
  fst (run_latency_test L 100 w) = Raise e →
  main L F args w out w' →
  out = Raised e ∧ w' = snd (run_latency_test L 100 w).
Proof.
  intros Ht He. unfold main, latency_stage.
  assert (Hsel : test_type_in (test_type args) [latency; both] = true)
    by (destruct (test_type args); [reflexivity | congruence | reflexivity]).
  rewrite Hsel.
  destruct (run_latency_test L 100 w) as [r w1]. cbn [fst snd] in *. subst r.
  intros H. exact H.
Qed.

(** Both tests selected, nothing listening: [main] ends in the
    ValueError of the latency statistics. *)
Lemma main_stops_at_failed_latency_test_witness :
  main fixture_numerics fixture_formatter fixture_args
    (fixture_world (λ _, 0) dead_endpoint)
    (Raised (Exn ValueError
       "zero-size array to reduction operation minimum which has no identity"))
    (snd (run_latency_test fixture_numerics 100
            (fixture_world (λ _, 0) dead_endpoint))) ∧
  Raised (A := MainOutcome) (Exn ValueError
       "zero-size array to reduction operation minimum which has no identity")
    = Raised (Exn ValueError
       "zero-size array to reduction operation minimum which has no identity") ∧
  snd (run_latency_test fixture_numerics 100
         (fixture_world (λ _, 0) dead_endpoint))
    = snd (run_latency_test fixture_numerics 100
             (fixture_world (λ _, 0) dead_endpoint)).
Proof.
  assert (Ht : test_type fixture_args ≠ throughput) by discriminate.
  pose proof (run_latency_test_all_refused fixture_numerics 100 _
                (dead_endpoint_refuses_all (λ _, 0))) as He.
  split; [exact (main_after_failed_latency_test _ fixture_formatter _ _ _ Ht He) |].
  exact (main_stops_at_failed_latency_test fixture_numerics fixture_formatter
           fixture_args _ _ _ _ Ht He
           (main_after_failed_latency_test _ fixture_formatter _ _ _ Ht He)).
Defined.

(** X28: with both tests selected and no worker ([--concurrent] of zero
    or less), a latency test that returned its report is followed by
    ValueError from the executor, raised right after the start time of
    the throughput test is read: [main] fails, and the latency report is
    never written. *)
Theorem main_without_workers (L : Numerics) (F : Formatter) (args : Args)
    (w w1 w' : World) (report : pyval) (out : cli_result MainOutcome) :
  concurrent args ≤ 0 →
  test_type args = both →
  run_latency_test L 100 w = (Ok report, w1) →
  main L F args w out w' →
  out = Raised (Exn ValueError "max_workers must be greater than 0") ∧
  w' = tick w1.
Proof.
  intros HC Ht Hrun. unfold main.
  pose proof (latency_stage_cases L F args w) as Hstage.
  destruct (latency_stage L F args w) as [[[lines1 results1] | e | msg] w0];
    rewrite ?Ht in *; cbn [test_type_in existsb orb] in *.
  - destruct Hstage as (report' & Hrun' & _). rewrite Hrun in Hrun'.
    injection Hrun' as _ <-.
    unfold run_throughput_test.
    destruct (decide (concurrent args ≤ 0)) as [_ | Hn]; [| contradiction].
    intros (r & [-> ->] & ->). split; reflexivity.
  - destruct Hstage as [_ Hrun']. rewrite Hrun in Hrun'. discriminate.
  - destruct Hstage.
Qed.

(** A run of [main] that fails in the executor after a latency test
    that returned. *)
Lemma main_after_latency_test_without_workers (L : Numerics) (F : Formatter)
    (args : Args) (w w1 : World) (report : pyval) :
  concurrent args ≤ 0 →
  test_type args = both →
  run_latency_test L 100 w = (Ok report, w1) →
  main L F args w
    (Raised (Exn ValueError "max_workers must be greater than 0")) (tick w1).
Proof.
  intros HC Ht Hrun. unfold main.
  pose proof (latency_stage_cases L F args w) as Hstage.
  destruct (latency_stage L F args w) as [[[lines1 results1] | e | msg] w0];
    rewrite ?Ht in *; cbn [test_type_in existsb orb] in *.
  - destruct Hstage as (report' & Hrun' & _). rewrite Hrun in Hrun'.
    injection Hrun' as _ <-.
    exists (Raise (Exn ValueError "max_workers must be greater than 0")).
    split; [| reflexivity].
    unfold run_throughput_test.
    destruct (decide (concurrent args ≤ 0)) as [_ | Hn]; [| contradiction].
    split; reflexivity.
  - destruct Hstage as [_ Hrun']. rewrite Hrun in Hrun'. discriminate.
  - destruct Hstage.
Qed.

Lemma main_without_workers_witness :
  ∃ report w1,
    run_latency_test fixture_numerics 100
      (fixture_world (λ _, 0) (stub_endpoint 0.9)) = (Ok report, w1) ∧
    main fixture_numerics fixture_formatter fixture_no_workers_args
      (fixture_world (λ _, 0) (stub_endpoint 0.9))
      (Raised (Exn ValueError "max_workers must be greater than 0")) (tick w1) ∧
    Raised (A := MainOutcome) (Exn ValueError "max_workers must be greater than 0")
      = Raised (Exn ValueError "max_workers must be greater than 0") ∧
    tick w1 = tick w1.
Proof.
  assert (Hrun : ∃ report w1,
            run_latency_test fixture_numerics 100
              (fixture_world (λ _, 0) (stub_endpoint 0.9)) = (Ok report, w1)).
  { eexists _, _. vm_compute. reflexivity. }
  destruct Hrun as (report & w1 & Hrun). exists report, w1.
  assert (HC : concurrent fixture_no_workers_args ≤ 0) by (cbn; lia).
  split; [exact Hrun |].
  split;
    [exact (main_after_latency_test_without_workers _ fixture_formatter
              fixture_no_workers_args _ _ _ HC eq_refl Hrun) |].
  exact (main_without_workers fixture_numerics fixture_formatter
           fixture_no_workers_args _ w1 _ report _ HC eq_refl Hrun
           (main_after_latency_test_without_workers _ fixture_formatter
              fixture_no_workers_args _ _ _ HC eq_refl Hrun)).
Defined.

Lemma save_results_cases (args : Args) (lines : list string)
    (results : list pyval) (w : World) :
  save_results args lines results w = Returned (finish_main args lines results)
  ∨ ∃ path msg,
      output_path args = Some path ∧ write_error w path = Some msg ∧
      save_results args lines results w = Raised (Exn OSError msg).
Proof.
  unfold save_results. destruct (output_path args) as [path |]; [| auto].
  destruct (write_error w path) as [msg |] eqn:Hw; [| auto].
  right. eauto.
Qed.

(** X29: whatever [main] raises was raised by the latency run, by the
    throughput run, or by opening the output file for writing. The
    printer never fails on the reports of the runs, and
    [AttributeError] is never raised. *)
Theorem main_failure_sources (L : Numerics) (F : Formatter)
    (args : Args) (w w' : World) (out : cli_result MainOutcome) :
  main L F args w out w' →
  (∃ o, out = Returned o)
  ∨ (∃ e, out = Raised e ∧
          (run_latency_test L 100 w = (Raise e, w')
           ∨ (∃ w1, run_throughput_test L (requests args) (concurrent args) w1
                      (Raise e) w')
           ∨ (∃ path msg,
                output_path args = Some path ∧
                write_error w' path = Some msg ∧
                e = Exn OSError msg))).
Proof.
  unfold main.
  pose proof (latency_stage_cases L F args w) as Hstage.
  destruct (latency_stage L F args w) as [[[lines1 results1] | e | msg] w1];
    [| | destruct Hstage].
  - destruct (test_type_in (test_type args) [throughput; both]).
    + intros ([report | e] & Hrun & ->).
      * destruct (run_throughput_test_report L _ _ _ _ _ Hrun)
          as (ml & t0 & t1 & Hrep).
        destruct (print_results_on_throughput_report L F _ _ _ _ _ _ Hrep)
          as (_ & lines2 & Hp & _).
        cbn [of_pyresult cbind]. rewrite Hp. cbn [cbind].
        destruct (save_results_cases args (lines1 ++ lines2)
                    (results1 ++ [report]) w')
          as [-> | (path & msg & Hpath & Hw & ->)]; [eauto |].
        right. eexists. split; [reflexivity |]. right. right. eauto.
      * right. exists e. split; [reflexivity |]. right. left. eauto.
    + intros [-> ->].
      destruct (save_results_cases args lines1 results1 w1)
        as [-> | (path & msg & Hpath & Hw & ->)]; [eauto |].
      right. eexists. split; [reflexivity |]. right. right. eauto.
  - destruct Hstage as [_ Hrun]. intros [-> ->].
    right. exists e. split; [reflexivity |]. left. exact Hrun.
Qed.

Lemma main_failure_sources_witness :
  main fixture_numerics fixture_formatter fixture_args
    (fixture_world (λ _, 0) dead_endpoint)
    (Raised (Exn ValueError
       "zero-size array to reduction operation minimum which has no identity"))
    (snd (run_latency_test fixture_numerics 100
            (fixture_world (λ _, 0) dead_endpoint))) ∧
  ((∃ o : MainOutcome,
      Raised (Exn ValueError
        "zero-size array to reduction operation minimum which has no identity")
      = Returned o)
   ∨ (∃ e,
        Raised (A := MainOutcome) (Exn ValueError
          "zero-size array to reduction operation minimum which has no identity")
        = Raised e ∧
        (run_latency_test fixture_numerics 100
           (fixture_world (λ _, 0) dead_endpoint)
         = (Raise e, snd (run_latency_test fixture_numerics 100
                            (fixture_world (λ _, 0) dead_endpoint)))
         ∨ (∃ w1, run_throughput_test fixture_numerics
                    (requests fixture_args) (concurrent fixture_args) w1
                    (Raise e)
                    (snd (run_latency_test fixture_numerics 100
                            (fixture_world (λ _, 0) dead_endpoint))))
         ∨ (∃ path msg,
              output_path fixture_args = Some path ∧
              write_error (snd (run_latency_test fixture_numerics 100
                                  (fixture_world (λ _, 0) dead_endpoint))) path
                = Some msg ∧
              e = Exn OSError msg)))).
Proof.
  assert (Ht : test_type fixture_args ≠ throughput) by discriminate.
  pose proof (run_latency_test_all_refused fixture_numerics 100 _
                (dead_endpoint_refuses_all (λ _, 0))) as He.
  split; [exact (main_after_failed_latency_test _ fixture_formatter _ _ _ Ht He) |].
  exact (main_failure_sources fixture_numerics fixture_formatter
           fixture_args _ _ _
           (main_after_failed_latency_test _ fixture_formatter _ _ _ Ht He)).
Defined.
